(** * file-drive: the Convex file functions of [src/convex/files.ts]

    A shallow embedding of the organization-scoped file store: access checks
    ([hasAccessToOrg], [hasAccessToFile], [assertCanDeleteFile]), the file
    lifecycle ([createFile], [getFiles], [deleteFile], [restoreFile],
    [deleteAllFiles]) and the favorites relation ([toggleFavorite],
    [getAllFavorites]).

    Documents are records carrying their [_id], tables are lists in creation
    order, handlers are computations in a state-and-exception monad over the
    store, and a mutation commits its writes only when its handler returns. *)

From Stdlib Require Import List String Ascii Bool Arith PeanoNat Lia Permutation
  Sorted.
Import ListNotations.
Open Scope string_scope.
Open Scope nat_scope.
Open Scope list_scope.

(** ** Documents *)

(** Convex document and storage identifiers. The store hands them out from a
    counter, so they are modelled as natural numbers. *)
Definition Id := nat.

(** Modelled from the spec: [fileTypes] of [src/convex/schema.ts], which is not
    among the sources; the spec calls it an enumerated category. Every literal
    of such a union is a non-empty string, hence truthy in [if (args.type)]. *)
Inductive FileType := image | csv | pdf.

Definition FileType_eqb (a b : FileType) : bool :=
  match a, b with
  | image, image | csv, csv | pdf, pdf => true
  | _, _ => false
  end.

Module Users.
(** One entry of [user.orgIds]. *)
Record Org := { orgId : string; role : string }.
(** [Doc<"users">], as far as [files.ts] reads it. *)
Record Doc := { _id : Id; orgIds : list Org }.
End Users.

Module Files.
(** [Doc<"files">]. [shouldDelete] is an optional field: [None] is a
    document that does not carry it. *)
Record Doc := {
  _id : Id;
  name : string;
  orgId : string;
  fileId : Id;
  type : FileType;
  userId : Id;
  shouldDelete : option bool
}.
End Files.

Module Favorites.
(** [Doc<"favorites">]. *)
Record Doc := { _id : Id; fileId : Id; userId : Id; orgId : string }.
End Favorites.

(** The record store and the blob storage reached through [ctx.db] and
    [ctx.storage]. [storage] lists the storage ids that hold a blob. *)
Record Db := {
  files : list Files.Doc;
  favorites : list Favorites.Doc;
  storage : list Id;
  nextId : Id
}.

(** The request context, as far as authentication goes. *)
Record Ctx := { ctx_user : option Users.Doc }.

(** Modelled from the spec: [getUser] of [src/convex/users.ts], which is not
    among the sources: the Membership Oracle, resolving the caller to a user
    document with its memberships, or to nothing when nobody is logged in. *)
Definition getUser (ctx : Ctx) : option Users.Doc := ctx_user ctx.

(** ** Failures *)

(** [ConvexError msg] is [throw new ConvexError(msg)]. The other two are the
    failures of the collaborators. *)
Inductive Err :=
| ConvexError (msg : string)
| BlobUnavailable (storageId : Id)
| DocNotFound (id : Id).

(** ** Handler monad: state over [Db], exceptions in [Err] *)

Definition M (A : Type) : Type := Db -> Err + (A * Db).

Definition ret {A} (a : A) : M A := fun db => inr (a, db).
Definition throw {A} (e : Err) : M A := fun _ => inl e.
Definition bind {A B} (m : M A) (k : A -> M B) : M B :=
  fun db => match m db with
            | inl e => inl e
            | inr (a, db') => k a db'
            end.
Definition get_db : M Db := fun db => inr (db, db).

Declare Scope handler_scope.
Delimit Scope handler_scope with handler.
Notation "x <- m ;; k" := (bind m (fun x => k))
  (at level 61, m at next level, right associativity) : handler_scope.
Notation "m ;; k" := (bind m (fun _ => k))
  (at level 61, right associativity) : handler_scope.
Open Scope handler_scope.

(** [await Promise.all(xs.map(async (x) => { ... }))] whose result is
    discarded. The effects of the callbacks are taken in list order, and the
    whole rejects with the first rejection; the mutation around it then
    commits nothing, so what the later callbacks did is not observable. *)
Fixpoint forEach {A} (f : A -> M unit) (xs : list A) : M unit :=
  match xs with
  | [] => ret tt
  | x :: xs' => f x ;; forEach f xs'
  end.

(** A Convex mutation is a transaction: when the handler throws, none of its
    writes is committed and the caller sees the error. *)
Definition mutation {A} (h : M A) (db : Db) : Db * (Err + A) :=
  match h db with
  | inl e => (db, inl e)
  | inr (a, db') => (db', inr a)
  end.

(** The store a mutation leaves behind. *)
Definition after {A} (h : M A) (db : Db) : Db := fst (mutation h db).

(** ** [ctx.db] and [ctx.storage] *)

Definition with_files (fs : list Files.Doc) (db : Db) : Db :=
  {| files := fs; favorites := favorites db;
     storage := storage db; nextId := nextId db |}.

Definition with_favorites (fs : list Favorites.Doc) (db : Db) : Db :=
  {| files := files db; favorites := fs;
     storage := storage db; nextId := nextId db |}.

(** [ctx.db.get(fileId)] on the files table. *)
Definition db_get (id : Id) (db : Db) : option Files.Doc :=
  find (fun f => Files._id f =? id) (files db).

(** [ctx.db.insert("files", doc)]: the store chooses the [_id]. *)
Definition db_insert_file (doc : Id -> Files.Doc) : M Id :=
  fun db =>
    let id := nextId db in
    inr (id, {| files := files db ++ [doc id]; favorites := favorites db;
                storage := storage db; nextId := S id |}).

(** [ctx.db.insert("favorites", doc)]. *)
Definition db_insert_favorite (doc : Id -> Favorites.Doc) : M Id :=
  fun db =>
    let id := nextId db in
    inr (id, {| files := files db; favorites := favorites db ++ [doc id];
                storage := storage db; nextId := S id |}).

Definition set_shouldDelete (b : bool) (f : Files.Doc) : Files.Doc :=
  {| Files._id := Files._id f; Files.name := Files.name f;
     Files.orgId := Files.orgId f; Files.fileId := Files.fileId f;
     Files.type := Files.type f; Files.userId := Files.userId f;
     Files.shouldDelete := Some b |}.

(** The table after [{ shouldDelete: b }] is merged into the document [id]. *)
Definition patched (id : Id) (b : bool) (fs : list Files.Doc) : list Files.Doc :=
  map (fun f => if Files._id f =? id then set_shouldDelete b f else f) fs.

(** [ctx.db.patch(id, { shouldDelete: b })]; patching a missing document
    throws. *)
Definition db_patch_shouldDelete (id : Id) (b : bool) : M unit :=
  fun db =>
    match db_get id db with
    | None => inl (DocNotFound id)
    | Some _ =>
        inr (tt, with_files (patched id b (files db)) db)
    end.

(** [ctx.db.delete(id)] on the files table; deleting a missing document
    throws. *)
Definition db_delete_file (id : Id) : M unit :=
  fun db =>
    match db_get id db with
    | None => inl (DocNotFound id)
    | Some _ =>
        inr (tt, with_files
                   (filter (fun f => negb (Files._id f =? id)) (files db)) db)
    end.

(** [ctx.db.delete(id)] on the favorites table. *)
Definition db_delete_favorite (id : Id) : M unit :=
  fun db =>
    if existsb (fun f => Favorites._id f =? id) (favorites db)
    then inr (tt, with_favorites
                    (filter (fun f => negb (Favorites._id f =? id))
                            (favorites db)) db)
    else inl (DocNotFound id).

(** Modelled from the spec: the Blob Storage Gateway's
    [deleteBlob(storageRef) -> success | NotFound], reached as
    [ctx.storage.delete]: it removes the blob, and fails when there is none. *)
Definition storage_delete (sid : Id) : M unit :=
  fun db =>
    if existsb (Nat.eqb sid) (storage db)
    then inr (tt, {| files := files db; favorites := favorites db;
                     storage := filter (fun s => negb (s =? sid)) (storage db);
                     nextId := nextId db |})
    else inl (BlobUnavailable sid).

(** A retrieval URL. *)
Inductive Url := UrlOf (storageId : Id).

(** Modelled from the spec: the gateway's [resolveUrl(storageRef) -> URL | null],
    reached as [ctx.storage.getUrl]. *)
Definition storage_getUrl (sid : Id) (db : Db) : option Url :=
  if existsb (Nat.eqb sid) (storage db) then Some (UrlOf sid) else None.

(** ** JavaScript values *)

(** Truthiness of an optional boolean ([undefined] and [false] are falsy). *)
Definition truthy (b : option bool) : bool :=
  match b with Some true => true | _ => false end.

(** [c.toLowerCase()] on one character of the ASCII range: the letters A to
    Z go to a to z, every other character of the range is left as it is. *)
Definition lower_ascii (c : ascii) : ascii :=
  let n := nat_of_ascii c in
  if (65 <=? n) && (n <=? 90) then ascii_of_nat (n + 32) else c.

(** [s.toLowerCase()] on a string of the ASCII range ([ascii_only] below).
    Outside that range JavaScript also lower-cases other letters, which this
    function does not follow; what is proved about the outcome of the query
    filter is stated for names and queries of the ASCII range. *)
Fixpoint toLowerCase (s : string) : string :=
  match s with
  | EmptyString => EmptyString
  | String c s' => String (lower_ascii c) (toLowerCase s')
  end.

(** [s.includes(sub)]. *)
Fixpoint includes (s sub : string) : bool :=
  prefix sub s ||
  match s with
  | EmptyString => false
  | String _ s' => includes s' sub
  end.

(** ** Access checks *)

(** [hasAccessToOrg(ctx, orgId)]: the user, when one is logged in and one of
    the memberships is for [orgId]. The console lines are not modelled. *)
Definition hasAccessToOrg (ctx : Ctx) (orgId : string) : option Users.Doc :=
  match getUser ctx with
  | None => None
  | Some user =>
      let hasAccess :=
        existsb (fun item => Users.orgId item =? orgId)%string
                (Users.orgIds user) in
      if negb hasAccess then None else Some user
  end.

(** [hasAccessToFile(ctx, fileId)]. *)
Definition hasAccessToFile (ctx : Ctx) (fileId : Id) (db : Db)
  : option (Users.Doc * Files.Doc) :=
  match db_get fileId db with
  | None => None
  | Some file =>
      match hasAccessToOrg ctx (Files.orgId file) with
      | None => None
      | Some user => Some (user, file)
      end
  end.

(** [user.orgIds.find((org) => org.orgId === file.orgId)?.role === "admin"]. *)
Definition isAdminOf (user : Users.Doc) (orgId : string) : bool :=
  match find (fun org => Users.orgId org =? orgId)%string (Users.orgIds user) with
  | Some org => (Users.role org =? "admin")%string
  | None => false
  end.

Definition canDelete (user : Users.Doc) (file : Files.Doc) : bool :=
  (Files.userId file =? Users._id user) || isAdminOf user (Files.orgId file).

(** [assertCanDeleteFile(user, file)]. *)
Definition assertCanDeleteFile (user : Users.Doc) (file : Files.Doc) : M unit :=
  if negb (canDelete user file)
  then throw (ConvexError "You do not have access to delete this file.")
  else ret tt.

(** ** File lifecycle *)

Record CreateFileArgs := {
  cf_name : string;
  cf_fileId : Id;
  cf_orgId : string;
  cf_type : FileType
}.

(** [createFile]: the inserted document has the five fields of the source
    and no [shouldDelete]. *)
Definition createFile (ctx : Ctx) (args : CreateFileArgs) : M unit :=
  match hasAccessToOrg ctx (cf_orgId args) with
  | None => throw (ConvexError "You do not have access to this organization.")
  | Some user =>
      _ <- db_insert_file (fun id =>
             {| Files._id := id;
                Files.name := cf_name args;
                Files.orgId := cf_orgId args;
                Files.fileId := cf_fileId args;
                Files.type := cf_type args;
                Files.userId := Users._id user;
                Files.shouldDelete := None |}) ;;
      ret tt
  end.

Record GetFilesArgs := {
  gf_orgId : string;
  gf_query : option string;
  gf_favorites : option bool;
  gf_deletedOnly : option bool;
  gf_type : option FileType
}.

(** An element of the result of [getFiles]: [{ ...file, url }]. *)
Record FileWithUrl := { file : Files.Doc; url : option Url }.

(** The index query [by_orgId] with [q.eq("orgId", orgId)]. *)
Definition files_by_orgId (orgId : string) (db : Db) : list Files.Doc :=
  filter (fun f => Files.orgId f =? orgId)%string (files db).

(** Insertion into a list that is ordered by [fileId], in front of the
    documents with the same or a greater [fileId]. *)
Fixpoint insert_by_fileId (fav : Favorites.Doc) (l : list Favorites.Doc)
  : list Favorites.Doc :=
  match l with
  | [] => [fav]
  | x :: l' =>
      if Favorites.fileId fav <=? Favorites.fileId x
      then fav :: x :: l'
      else x :: insert_by_fileId fav l'
  end.

(** The documents in the order of the index on their remaining field: by
    [fileId], and in creation order among equal [fileId]s. The store's order
    on ids is modelled by the order of the natural numbers. *)
Fixpoint by_fileId (l : list Favorites.Doc) : list Favorites.Doc :=
  match l with
  | [] => []
  | x :: l' => insert_by_fileId x (by_fileId l')
  end.

(** The index query [by_userId_orgId_fileId] with the first two fields fixed:
    the matching documents, in index order. *)
Definition favorites_by_userId_orgId (userId : Id) (orgId : string) (db : Db)
  : list Favorites.Doc :=
  by_fileId
    (filter (fun fav => (Favorites.userId fav =? userId) &&
                        (Favorites.orgId fav =? orgId)%string)
            (favorites db)).

(** [getFiles]: a query, it reads the store and cannot fail. *)
Definition getFiles (ctx : Ctx) (args : GetFilesArgs) (db : Db)
  : list FileWithUrl :=
  match hasAccessToOrg ctx (gf_orgId args) with
  | None => []
  | Some user =>
      let files := files_by_orgId (gf_orgId args) db in
      let files :=
        match gf_query args with
        | Some (String _ _ as query) =>
            filter (fun file =>
                      includes (toLowerCase (Files.name file))
                               (toLowerCase query)) files
        | _ => files
        end in
      let files :=
        if truthy (gf_favorites args) then
          let favorites :=
            favorites_by_userId_orgId (Users._id user) (gf_orgId args) db in
          filter (fun file =>
                    existsb (fun favorite =>
                               Favorites.fileId favorite =? Files._id file)
                            favorites) files
        else files in
      let files :=
        if truthy (gf_deletedOnly args)
        then filter (fun file => truthy (Files.shouldDelete file)) files
        else filter (fun file => negb (truthy (Files.shouldDelete file))) files in
      let files :=
        match gf_type args with
        | Some type =>
            filter (fun file => FileType_eqb (Files.type file) type) files
        | None => files
        end in
      map (fun file =>
             {| file := file; url := storage_getUrl (Files.fileId file) db |})
          files
  end.

(** The document's [shouldDelete] field is the value [true]. *)
Definition isFlagged (f : Files.Doc) : bool :=
  match Files.shouldDelete f with
  | Some true => true
  | _ => false
  end.

(** The index query [by_shouldDelete] with [q.eq("shouldDelete", true)]: only
    documents whose field is the value [true]. *)
Definition files_by_shouldDelete_true (db : Db) : list Files.Doc :=
  filter isFlagged (files db).

(** The callback of [deleteAllFiles]: the blob first, then the record. *)
Definition purgeFile (file : Files.Doc) : M unit :=
  storage_delete (Files.fileId file) ;;
  db_delete_file (Files._id file).

(** [deleteAllFiles]. *)
Definition deleteAllFiles : M unit :=
  db <- get_db ;;
  forEach purgeFile (files_by_shouldDelete_true db).

(** [deleteFile]. *)
Definition deleteFile (ctx : Ctx) (fileId : Id) : M unit :=
  db <- get_db ;;
  match hasAccessToFile ctx fileId db with
  | None => throw (ConvexError "No access to file.")
  | Some (user, file) =>
      assertCanDeleteFile user file ;;
      db_patch_shouldDelete fileId true
  end.

(** [restoreFile]. *)
Definition restoreFile (ctx : Ctx) (fileId : Id) : M unit :=
  db <- get_db ;;
  match hasAccessToFile ctx fileId db with
  | None => throw (ConvexError "No access to file.")
  | Some (user, file) =>
      assertCanDeleteFile user file ;;
      db_patch_shouldDelete fileId false
  end.

(** ** Favorites *)

(** The index query [by_userId_orgId_fileId] with all three fields fixed,
    followed by [.first()]. *)
Definition favorite_first (userId : Id) (orgId : string) (fileId : Id) (db : Db)
  : option Favorites.Doc :=
  find (fun fav => (Favorites.userId fav =? userId) &&
                   (Favorites.orgId fav =? orgId)%string &&
                   (Favorites.fileId fav =? fileId))
       (favorites db).

(** [toggleFavorite]. *)
Definition toggleFavorite (ctx : Ctx) (fileId : Id) : M unit :=
  db <- get_db ;;
  match hasAccessToFile ctx fileId db with
  | None => throw (ConvexError "No access to file.")
  | Some (user, file) =>
      match favorite_first (Users._id user) (Files.orgId file)
                           (Files._id file) db with
      | None =>
          _ <- db_insert_favorite (fun id =>
                 {| Favorites._id := id;
                    Favorites.fileId := Files._id file;
                    Favorites.userId := Users._id user;
                    Favorites.orgId := Files.orgId file |}) ;;
          ret tt
      | Some favorite => db_delete_favorite (Favorites._id favorite)
      end
  end.

(** [getAllFavorites]. *)
Definition getAllFavorites (ctx : Ctx) (orgId : string) (db : Db)
  : list Favorites.Doc :=
  match hasAccessToOrg ctx orgId with
  | None => []
  | Some user => favorites_by_userId_orgId (Users._id user) orgId db
  end.

(** ** Sequences of calls *)

Inductive Call :=
| CreateFile (ctx : Ctx) (args : CreateFileArgs)
| DeleteFile (ctx : Ctx) (fileId : Id)
| RestoreFile (ctx : Ctx) (fileId : Id)
| ToggleFavorite (ctx : Ctx) (fileId : Id)
| DeleteAllFiles.

Definition handler (c : Call) : M unit :=
  match c with
  | CreateFile ctx args => createFile ctx args
  | DeleteFile ctx fileId => deleteFile ctx fileId
  | RestoreFile ctx fileId => restoreFile ctx fileId
  | ToggleFavorite ctx fileId => toggleFavorite ctx fileId
  | DeleteAllFiles => deleteAllFiles
  end.

(** The store after a sequence of mutations, each one committed or rolled
    back on its own. *)
Definition run (calls : list Call) (db : Db) : Db :=
  fold_left (fun db c => after (handler c) db) calls db.

(** ** Specification vocabulary *)

(** The actor's membership set has an entry for the organization. *)
Definition member (user : Users.Doc) (orgId : string) : Prop :=
  exists m, In m (Users.orgIds user) /\ Users.orgId m = orgId.

(** The actor is a member of the organization (the spec's [authorizeOrg]
    succeeds). *)
Definition authorizedOrg (ctx : Ctx) (orgId : string) : Prop :=
  exists user, getUser ctx = Some user /\ member user orgId.

(** The outcome and the store of a mutation. *)
Definition outcome {A} (h : M A) (db : Db) : Err + A := snd (mutation h db).

(** The mutation is denied with [ConvexError msg] and writes nothing. *)
Definition denied {A} (h : M A) (db : Db) (msg : string) : Prop :=
  mutation h db = (db, inl (ConvexError msg)).

(** The key of the favorites relation. *)
Definition fav_key (fav : Favorites.Doc) : Id * Id :=
  (Favorites.userId fav, Favorites.fileId fav).

(** The Favorite records of one (user, file) pair. *)
Definition favorites_of (userId fileId : Id) (db : Db) : list Favorites.Doc :=
  filter (fun fav => (Favorites.userId fav =? userId) &&
                     (Favorites.fileId fav =? fileId))
         (favorites db).

(** At most one Favorite record per (userId, fileId) pair. *)
Definition unique_favorites (db : Db) : Prop :=
  NoDup (map fav_key (favorites db)).

(** The ids of the Favorite records were handed out by the store. *)
Definition favorites_issued (db : Db) : Prop :=
  forall fav, In fav (favorites db) -> Favorites._id fav < nextId db.

(** The invariant of the store: document ids are unique and were handed out
    by the store, a Favorite carries the [orgId] of the file it points at, and
    favorites are unique per pair. *)
Record wf (db : Db) : Prop := {
  wf_fav_ids : favorites_issued db;
  wf_file_ids : NoDup (map Files._id (files db));
  wf_file_issued : forall f, In f (files db) -> Files._id f < nextId db;
  wf_fav_issued :
    forall fav, In fav (favorites db) -> Favorites.fileId fav < nextId db;
  wf_fav_org :
    forall fav f, In fav (favorites db) -> In f (files db) ->
                  Favorites.fileId fav = Files._id f ->
                  Favorites.orgId fav = Files.orgId f;
  wf_unique : unique_favorites db
}.

(** The actor holds the admin role in the organization. *)
Definition admin (user : Users.Doc) (orgId : string) : Prop :=
  exists m, In m (Users.orgIds user) /\ Users.orgId m = orgId /\
            Users.role m = "admin".

(** The spec's [canMutateOrDelete], for the actor of a call: the actor is the
    owner of the file or holds the admin role in its organization. *)
Definition ownerOrAdmin (ctx : Ctx) (f : Files.Doc) : Prop :=
  exists user, getUser ctx = Some user /\
               (Files.userId f = Users._id user \/ admin user (Files.orgId f)).

(** The purge of the spec, item by item: after the sweep every flagged file's
    record is gone, the failing items' included, and so is every flagged
    file's blob. *)
Definition purge_independent (db : Db) : Prop :=
  forall f, In f (files_by_shouldDelete_true db) ->
            ~ In f (files (after deleteAllFiles db)) /\
            ~ In (Files.fileId f) (storage (after deleteAllFiles db)).

(** *** The filters of [getFiles] as one predicate

    The successive [files.filter(...)] of the handler, folded into a single
    boolean test. These are the code's own tests, put side by side; what the
    spec asks of a listing is [listed_by_spec] below. *)

(** The test of lines 95-99. *)
Definition matchesQuery (query : option string) (f : Files.Doc) : bool :=
  match query with
  | Some q => includes (toLowerCase (Files.name f)) (toLowerCase q)
  | None => true
  end.

(** The test of lines 101-112, on the result of the index query that
    [getAllFavorites] issues as well. *)
Definition matchesFavorites (favs : option bool) (ctx : Ctx) (orgId : string)
           (db : Db) (f : Files.Doc) : bool :=
  match favs with
  | Some true =>
      existsb (fun fav => Favorites.fileId fav =? Files._id f)
              (getAllFavorites ctx orgId db)
  | _ => true
  end.

(** [deletedOnly], defaulting to false. *)
Definition deletedOnly_or_default (deletedOnly : option bool) : bool :=
  match deletedOnly with
  | Some b => b
  | None => false
  end.

(** The test of lines 114-118. *)
Definition matchesDeleted (deletedOnly : option bool) (f : Files.Doc) : bool :=
  Bool.eqb (truthy (Files.shouldDelete f)) (deletedOnly_or_default deletedOnly).

(** The test of lines 120-122. *)
Definition matchesType (type : option FileType) (f : Files.Doc) : bool :=
  match type with
  | Some t => FileType_eqb (Files.type f) t
  | None => true
  end.

(** The tests together, on the files of the organization. *)
Definition getFiles_keeps (ctx : Ctx) (args : GetFilesArgs) (db : Db)
           (f : Files.Doc) : bool :=
  (Files.orgId f =? gf_orgId args)%string &&
  matchesQuery (gf_query args) f &&
  matchesFavorites (gf_favorites args) ctx (gf_orgId args) db f &&
  matchesDeleted (gf_deletedOnly args) f &&
  matchesType (gf_type args) f.

(** The handler as one filter over the table: the files that pass, in table
    order, each with its URL. *)
Definition getFiles_as_filter (ctx : Ctx) (args : GetFilesArgs) (db : Db)
  : list FileWithUrl :=
  map (fun f => {| file := f; url := storage_getUrl (Files.fileId f) db |})
      (filter (getFiles_keeps ctx args db) (files db)).

(** *** The filters of listFiles, in the spec's words *)

(** The string is made of characters of the ASCII range. *)
Fixpoint isAscii (s : string) : bool :=
  match s with
  | EmptyString => true
  | String c s' => (nat_of_ascii c <? 128) && isAscii s'
  end.

Definition ascii_only (s : string) : Prop := isAscii s = true.

(** The character is one of the capital letters A to Z. *)
Definition capital (c : ascii) : Prop :=
  65 <= nat_of_ascii c /\ nat_of_ascii c <= 90.

(** Two characters are the same up to case: equal, or a capital letter and
    its small letter, 32 places further in the table. *)
Definition same_letter (c d : ascii) : Prop :=
  c = d \/
  (capital c /\ nat_of_ascii d = nat_of_ascii c + 32) \/
  (capital d /\ nat_of_ascii c = nat_of_ascii d + 32).

(** Two strings are the same up to case. *)
Inductive same_text : string -> string -> Prop :=
| same_text_nil : same_text EmptyString EmptyString
| same_text_cons c d s t :
    same_letter c d -> same_text s t -> same_text (String c s) (String d t).

(** (a) case-insensitive substring match: a stretch of the name is the query
    up to case. *)
Definition contains_ignoring_case (name query : string) : Prop :=
  exists pre mid post,
    name = (pre ++ mid ++ post)%string /\ same_text mid query.




(** The unfiltered view of an organization, live or deleted. *)
Definition view (orgId : string) (deletedOnly : option bool) : GetFilesArgs :=
  {| gf_orgId := orgId; gf_query := None; gf_favorites := None;
     gf_deletedOnly := deletedOnly; gf_type := None |}.

(** *** Vocabulary of the further properties *)

(** The fields of a File record that are written at creation only. *)
Definition same_identity (f g : Files.Doc) : Prop :=
  Files._id f = Files._id g /\ Files.name f = Files.name g /\
  Files.orgId f = Files.orgId g /\ Files.fileId f = Files.fileId g /\
  Files.type f = Files.type g /\ Files.userId f = Files.userId g.

(** No two Favorite records share an [_id]. *)
Definition favorite_ids_unique (db : Db) : Prop :=
  NoDup (map Favorites._id (favorites db)).

(** The caller passes both checks of [deleteFile] and [restoreFile] for the
    file: a member of its organization whom [assertCanDeleteFile] lets
    through. *)
Definition mayDelete (ctx : Ctx) (f : Files.Doc) : Prop :=
  exists user, getUser ctx = Some user /\ member user (Files.orgId f) /\
               canDelete user f = true.

(** The call is a [toggleFavorite]. *)
Definition isToggle (c : Call) : bool :=
  match c with
  | ToggleFavorite _ _ => true
  | _ => false
  end.

(** The call is the purge sweep. *)
Definition isPurge (c : Call) : bool :=
  match c with
  | DeleteAllFiles => true
  | _ => false
  end.

(** The call is made by a caller who is not a member of the organization
    (the sweep has no caller and is not such a call). *)
Definition fromOutside (orgId : string) (c : Call) : Prop :=
  match c with
  | CreateFile ctx _ | DeleteFile ctx _ | RestoreFile ctx _
  | ToggleFavorite ctx _ => ~ authorizedOrg ctx orgId
  | DeleteAllFiles => False
  end.

(** The arguments of [getFiles] with every falsy optional argument (an empty
    query, [favorites: false], [deletedOnly: false]) left out. *)
Definition without_falsy (args : GetFilesArgs) : GetFilesArgs :=
  {| gf_orgId := gf_orgId args;
     gf_query := match gf_query args with
                 | Some EmptyString => None
                 | q => q
                 end;
     gf_favorites := match gf_favorites args with
                     | Some false => None
                     | b => b
                     end;
     gf_deletedOnly := match gf_deletedOnly args with
                       | Some false => None
                       | b => b
                       end;
     gf_type := gf_type args |}.

(** The arguments of [getFiles] with another [query]. *)
Definition with_query (query : option string) (args : GetFilesArgs)
  : GetFilesArgs :=
  {| gf_orgId := gf_orgId args; gf_query := query;
     gf_favorites := gf_favorites args;
     gf_deletedOnly := gf_deletedOnly args; gf_type := gf_type args |}.

(** The favorites-only view of an organization, live or deleted. *)
Definition favorites_view (orgId : string) (deletedOnly : option bool)
  : GetFilesArgs :=
  {| gf_orgId := orgId; gf_query := None; gf_favorites := Some true;
     gf_deletedOnly := deletedOnly; gf_type := None |}.

(** ** Sample data *)

Definition acme_member (id : Id) : Ctx :=
  {| ctx_user := Some {| Users._id := id;
                         Users.orgIds := [ {| Users.orgId := "acme";
                                              Users.role := "member" |} ] |} |}.

Definition acme_admin (id : Id) : Ctx :=
  {| ctx_user := Some {| Users._id := id;
                         Users.orgIds := [ {| Users.orgId := "acme";
                                              Users.role := "admin" |} ] |} |}.

(** A user whose only membership is in another organization. *)
Definition outsider (id : Id) : Ctx :=
  {| ctx_user := Some {| Users._id := id;
                         Users.orgIds := [ {| Users.orgId := "other";
                                              Users.role := "admin" |} ] |} |}.

(** A user who belongs to no organization (any more). *)
Definition orgless (id : Id) : Ctx :=
  {| ctx_user := Some {| Users._id := id; Users.orgIds := [] |} |}.

Definition anonymous : Ctx := {| ctx_user := None |}.

Definition empty_db : Db :=
  {| files := []; favorites := []; storage := []; nextId := 0 |}.

Definition acme_file (id : Id) (name : string) (blob owner : Id)
           (flag : option bool) : Files.Doc :=
  {| Files._id := id; Files.name := name; Files.orgId := "acme";
     Files.fileId := blob; Files.type := pdf; Files.userId := owner;
     Files.shouldDelete := flag |}.

Definition report_args : CreateFileArgs :=
  {| cf_name := "Report.pdf"; cf_fileId := 100; cf_orgId := "acme";
     cf_type := pdf |}.

(** One live file of user 1 in "acme", blob stored. *)
Definition db_one : Db :=
  {| files := [acme_file 10 "Report.pdf" 100 1 None];
     favorites := []; storage := [100]; nextId := 11 |}.

(** Two flagged files; the blob of the first is already gone. *)
Definition db_flagged : Db :=
  {| files := [acme_file 10 "a.pdf" 100 1 (Some true);
               acme_file 11 "b.pdf" 101 1 (Some true)];
     favorites := []; storage := [101]; nextId := 12 |}.

(** Two flagged files and a live one, all blobs stored. *)
Definition db_sweepable : Db :=
  {| files := [acme_file 10 "a.pdf" 100 1 (Some true);
               acme_file 11 "b.pdf" 101 1 None;
               acme_file 12 "c.pdf" 102 2 (Some true)];
     favorites := []; storage := [100; 101; 102]; nextId := 13 |}.

(** A live and a flagged file, with Favorites of users 1 and 2. *)
Definition db_favorites : Db :=
  {| files := [acme_file 10 "Report.pdf" 100 1 None;
               acme_file 11 "Old notes.csv" 101 2 (Some true)];
     favorites := [ {| Favorites._id := 12; Favorites.fileId := 10;
                       Favorites.userId := 2; Favorites.orgId := "acme" |};
                    {| Favorites._id := 13; Favorites.fileId := 11;
                       Favorites.userId := 2; Favorites.orgId := "acme" |};
                    {| Favorites._id := 14; Favorites.fileId := 10;
                       Favorites.userId := 1; Favorites.orgId := "acme" |} ];
     storage := [100; 101]; nextId := 15 |}.

(** ** Basic facts *)

Lemma hasAccessToOrg_Some ctx orgId user :
  hasAccessToOrg ctx orgId = Some user <->
  getUser ctx = Some user /\ member user orgId.
Proof.
  unfold hasAccessToOrg, member.
  destruct (getUser ctx) as [u|]; [|split; [discriminate|intros [? _]; discriminate]].
  destruct (existsb _ _) eqn:E; cbn.
  - apply existsb_exists in E as (m & Hin & Hm). apply String.eqb_eq in Hm.
    split.
    + intros [= <-]. eauto.
    + intros [[= <-] _]. reflexivity.
  - split; [discriminate|].
    intros [[= <-] (m & Hin & Hm)].
    assert (existsb (fun item => (Users.orgId item =? orgId)%string)
                    (Users.orgIds u) = true) as X.
    { apply existsb_exists. exists m. split; [assumption|].
      now apply String.eqb_eq. }
    congruence.
Qed.

Lemma hasAccessToOrg_None ctx orgId :
  hasAccessToOrg ctx orgId = None <-> ~ authorizedOrg ctx orgId.
Proof.
  unfold authorizedOrg. split.
  - intros H (user & Hu & Hm).
    assert (hasAccessToOrg ctx orgId = Some user) by now apply hasAccessToOrg_Some.
    congruence.
  - intros H. destruct (hasAccessToOrg ctx orgId) as [user|] eqn:E; [|reflexivity].
    apply hasAccessToOrg_Some in E. exfalso. apply H. exists user. exact E.
Qed.

Lemma createFile_member ctx args db user :
  hasAccessToOrg ctx (cf_orgId args) = Some user ->
  mutation (createFile ctx args) db =
  ({| files := files db ++
               [ {| Files._id := nextId db;
                    Files.name := cf_name args;
                    Files.orgId := cf_orgId args;
                    Files.fileId := cf_fileId args;
                    Files.type := cf_type args;
                    Files.userId := Users._id user;
                    Files.shouldDelete := None |} ];
      favorites := favorites db;
      storage := storage db;
      nextId := S (nextId db) |}, inr tt).
Proof.
  intros H. unfold mutation, createFile. rewrite H. reflexivity.
Qed.

Lemma createFile_stranger ctx args db :
  hasAccessToOrg ctx (cf_orgId args) = None ->
  denied (createFile ctx args) db "You do not have access to this organization.".
Proof.
  intros H. unfold denied, mutation, createFile. rewrite H. reflexivity.
Qed.

(** ** C2: createFile *)

(** C2, as stated, fails: the record a member's [createFile] inserts has no
    [shouldDelete] field, so no record of the table carries
    [shouldDelete = false]. *)
Lemma createFile_shouldDelete_is_not_false :
  ~ (exists f,
        In f (files (after (createFile (acme_member 1) report_args) empty_db)) /\
        Files.shouldDelete f = Some false).
Proof.
  intros (f & Hin & Hf). cbn in Hin.
  destruct Hin as [<- | []]. discriminate Hf.
Qed.

(** C2, amended: for an actor with a membership in the target organization,
    [createFile] succeeds and appends exactly one File record, owned by the
    actor, with the arguments as given and the [shouldDelete] field absent;
    for any other actor it fails with the ConvexError "You do not have access
    to this organization." and the store is unchanged. *)
Theorem createFile_inserts_unflagged_owned ctx args db :
  (authorizedOrg ctx (cf_orgId args) ->
   exists user f,
     getUser ctx = Some user /\
     outcome (createFile ctx args) db = inr tt /\
     files (after (createFile ctx args) db) = files db ++ [f] /\
     favorites (after (createFile ctx args) db) = favorites db /\
     storage (after (createFile ctx args) db) = storage db /\
     Files.shouldDelete f = None /\
     Files.userId f = Users._id user /\
     Files.orgId f = cf_orgId args /\
     Files.name f = cf_name args /\
     Files.fileId f = cf_fileId args /\
     Files.type f = cf_type args) /\
  (~ authorizedOrg ctx (cf_orgId args) ->
   denied (createFile ctx args) db
          "You do not have access to this organization.").
Proof.
  split.
  - intros (user & Hu & Hm).
    assert (hasAccessToOrg ctx (cf_orgId args) = Some user) as H
        by now apply hasAccessToOrg_Some.
    unfold outcome, after. rewrite (createFile_member _ _ db _ H). cbn.
    eexists user, _. repeat (split; [reflexivity || assumption|]). reflexivity.
  - intros H. apply createFile_stranger. now apply hasAccessToOrg_None.
Qed.

Lemma createFile_inserts_unflagged_owned_witness :
  (exists f,
      files (after (createFile (acme_member 1) report_args) empty_db) = [f] /\
      Files.shouldDelete f = None /\ Files.userId f = 1) /\
  denied (createFile (outsider 3) report_args) db_one
         "You do not have access to this organization.".
Proof.
  split.
  - destruct (createFile_inserts_unflagged_owned
                (acme_member 1) report_args empty_db) as [H _].
    destruct H as (user & f & Hu & _ & Hf & _ & _ & Hs & Ho & _).
    + exists {| Users._id := 1;
                Users.orgIds := [ {| Users.orgId := "acme";
                                     Users.role := "member" |} ] |}.
      split; [reflexivity|].
      eexists. split; [left; reflexivity|reflexivity].
    + exists f. injection Hu as <-. repeat split; assumption.
  - apply (createFile_inserts_unflagged_owned (outsider 3) report_args db_one).
    intros (user & Hu & m & Hin & Hm). injection Hu as <-.
    cbn in Hin. destruct Hin as [<- | []]. discriminate Hm.
Defined.

(** ** Lists *)

Lemma filter_filter_and {A} (p q : A -> bool) (l : list A) :
  filter p (filter q l) = filter (fun x => q x && p x) l.
Proof.
  induction l as [|x l IH]; cbn; [reflexivity|].
  destruct (q x); cbn; [destruct (p x)|]; now rewrite IH.
Qed.

Lemma filter_all {A} (p : A -> bool) (l : list A) :
  (forall x, In x l -> p x = true) -> filter p l = l.
Proof.
  induction l as [|x l IH]; cbn; intros H; [reflexivity|].
  rewrite (H x (or_introl eq_refl)). f_equal. apply IH. intros; apply H; now right.
Qed.


Lemma includes_empty s : includes s "" = true.
Proof. destruct s; reflexivity. Qed.

(** The index order rearranges the documents and nothing else. *)
Lemma insert_by_fileId_perm fav l : Permutation (insert_by_fileId fav l) (fav :: l).
Proof.
  induction l as [|x l IH]; cbn; [reflexivity|].
  destruct (Favorites.fileId fav <=? Favorites.fileId x); [reflexivity|].
  rewrite IH. apply perm_swap.
Qed.

Lemma by_fileId_perm l : Permutation (by_fileId l) l.
Proof.
  induction l as [|x l IH]; cbn; [constructor|].
  rewrite insert_by_fileId_perm. now constructor.
Qed.

(** The index order is an order by [fileId]. *)
Lemma by_fileId_sorted l :
  Sorted (fun a b => Favorites.fileId a <= Favorites.fileId b) (by_fileId l).
Proof.
  induction l as [|x l IH]; cbn; [constructor|].
  induction IH as [|y l' Hs IH' Hd]; cbn; [repeat constructor|].
  destruct (Favorites.fileId x <=? Favorites.fileId y) eqn:E.
  - apply Nat.leb_le in E. repeat constructor; assumption.
  - apply Nat.leb_gt in E. constructor; [exact IH'|].
    destruct Hd as [|z l'' Hz]; cbn.
    + constructor. lia.
    + destruct (Favorites.fileId x <=? Favorites.fileId z); constructor; lia.
Qed.

Lemma In_by_fileId fav l : In fav (by_fileId l) <-> In fav l.
Proof.
  split; apply Permutation_in; [|symmetry]; apply by_fileId_perm.
Qed.

Lemma existsb_by_fileId p l : existsb p (by_fileId l) = existsb p l.
Proof.
  destruct (existsb p l) eqn:E.
  - apply existsb_exists in E as (x & Hx & Hp). apply existsb_exists.
    exists x. split; [now apply In_by_fileId|assumption].
  - destruct (existsb p (by_fileId l)) eqn:E'; [|reflexivity].
    apply existsb_exists in E' as (x & Hx & Hp).
    assert (existsb p l = true) as X.
    { apply existsb_exists. exists x. split; [now apply In_by_fileId|assumption]. }
    congruence.
Qed.

(** ** getFiles *)

Lemma getAllFavorites_member ctx orgId db user :
  hasAccessToOrg ctx orgId = Some user ->
  getAllFavorites ctx orgId db =
  favorites_by_userId_orgId (Users._id user) orgId db.
Proof. intros H. unfold getAllFavorites. now rewrite H. Qed.

Lemma getFiles_files ctx args db user :
  hasAccessToOrg ctx (gf_orgId args) = Some user ->
  getFiles ctx args db = getFiles_as_filter ctx args db.
Proof.
  intros H. unfold getFiles, getFiles_as_filter. rewrite H. f_equal.
  unfold files_by_orgId.
  assert (forall fs : list Files.Doc,
             match gf_query args with
             | Some (String _ _ as query) =>
                 filter (fun file => includes (toLowerCase (Files.name file))
                                              (toLowerCase query)) fs
             | _ => fs
             end = filter (matchesQuery (gf_query args)) fs) as Ha.
  { intros fs. destruct (gf_query args) as [[|c q]|]; cbn.
    - symmetry. apply filter_all. intros x _. apply includes_empty.
    - reflexivity.
    - symmetry. now apply filter_all. }
  rewrite Ha. clear Ha.
  assert (forall fs : list Files.Doc,
             (if truthy (gf_favorites args)
              then filter (fun file =>
                             existsb (fun favorite =>
                                        Favorites.fileId favorite =? Files._id file)
                                     (favorites_by_userId_orgId
                                        (Users._id user) (gf_orgId args) db)) fs
              else fs)
             = filter (matchesFavorites (gf_favorites args) ctx
                                        (gf_orgId args) db) fs) as Hb.
  { intros fs. unfold matchesFavorites.
    rewrite (getAllFavorites_member _ _ db _ H).
    destruct (gf_favorites args) as [[|]|]; cbn;
      try reflexivity; symmetry; now apply filter_all. }
  rewrite Hb. clear Hb.
  assert (forall fs : list Files.Doc,
             (if truthy (gf_deletedOnly args)
              then filter (fun file => truthy (Files.shouldDelete file)) fs
              else filter (fun file => negb (truthy (Files.shouldDelete file))) fs)
             = filter (matchesDeleted (gf_deletedOnly args)) fs) as Hc.
  { intros fs. unfold matchesDeleted.
    destruct (gf_deletedOnly args) as [[|]|]; cbn; apply filter_ext;
      intros x; now destruct (truthy (Files.shouldDelete x)). }
  rewrite Hc. clear Hc.
  assert (forall fs : list Files.Doc,
             match gf_type args with
             | Some type =>
                 filter (fun file => FileType_eqb (Files.type file) type) fs
             | None => fs
             end = filter (matchesType (gf_type args)) fs) as Hd.
  { intros fs. destruct (gf_type args); cbn; [reflexivity|].
    symmetry. now apply filter_all. }
  rewrite Hd. clear Hd.
  rewrite !filter_filter_and. apply filter_ext. intros f.
  unfold getFiles_keeps. now rewrite !andb_assoc.
Qed.

Lemma getFiles_stranger ctx args db :
  hasAccessToOrg ctx (gf_orgId args) = None -> getFiles ctx args db = [].
Proof. intros H. unfold getFiles. now rewrite H. Qed.

Lemma getFiles_view ctx orgId d db user :
  hasAccessToOrg ctx orgId = Some user ->
  map file (getFiles ctx (view orgId d) db) =
  filter (fun f => Bool.eqb (truthy (Files.shouldDelete f))
                            (deletedOnly_or_default d))
         (files_by_orgId orgId db).
Proof.
  intros H. rewrite (getFiles_files ctx (view orgId d) db user H).
  unfold getFiles_as_filter. rewrite map_map. cbn. rewrite map_id.
  unfold files_by_orgId. rewrite filter_filter_and.
  apply filter_ext. intros f. unfold getFiles_keeps, matchesDeleted. cbn.
  now rewrite !andb_true_r.
Qed.

(** ** C10: a fresh record has no shouldDelete field *)

(** C10: the File record a successful [createFile] appends carries no
    [shouldDelete] field; the caller's default listing of the organization
    ([deletedOnly] unset or false) returns it, and the index query of
    [deleteAllFiles], which matches [shouldDelete] equal to [true] only, does
    not select it. *)
Theorem createFile_record_unflagged_listed_not_purged ctx args db deletedOnly :
  authorizedOrg ctx (cf_orgId args) ->
  deletedOnly = None \/ deletedOnly = Some false ->
  exists f,
    files (after (createFile ctx args) db) = files db ++ [f] /\
    Files.shouldDelete f = None /\
    In f (map file (getFiles ctx (view (cf_orgId args) deletedOnly)
                             (after (createFile ctx args) db))) /\
    ~ In f (files_by_shouldDelete_true (after (createFile ctx args) db)).
Proof.
  intros (user & Hu & Hm) Hd.
  assert (hasAccessToOrg ctx (cf_orgId args) = Some user) as H
      by now apply hasAccessToOrg_Some.
  unfold after. rewrite (createFile_member _ _ db _ H). cbn [fst].
  eexists. split; [reflexivity|]. split; [reflexivity|]. split.
  - rewrite (getFiles_view ctx _ _ _ user H).
    apply filter_In. split.
    + unfold files_by_orgId. cbn [files]. apply filter_In. split.
      * apply in_or_app. right. now left.
      * cbn. apply String.eqb_refl.
    + destruct Hd as [-> | ->]; reflexivity.
  - unfold files_by_shouldDelete_true. intros Hin.
    apply filter_In in Hin as [_ Hin]. discriminate Hin.
Qed.

Lemma createFile_record_unflagged_listed_not_purged_witness :
  exists f,
    files (after (createFile (acme_member 1) report_args) db_sweepable)
    = files db_sweepable ++ [f] /\
    Files.shouldDelete f = None /\
    In f (map file (getFiles (acme_member 1) (view "acme" None)
                     (after (createFile (acme_member 1) report_args)
                            db_sweepable))) /\
    ~ In f (files_by_shouldDelete_true
              (after (createFile (acme_member 1) report_args) db_sweepable)).
Proof.
  apply (createFile_record_unflagged_listed_not_purged
           (acme_member 1) report_args db_sweepable None).
  - eexists. split; [reflexivity|].
    eexists. split; [left; reflexivity|reflexivity].
  - left. reflexivity.
Defined.

(** ** Access to a file *)

Lemma hasAccessToFile_missing ctx fileId db :
  db_get fileId db = None -> hasAccessToFile ctx fileId db = None.
Proof. intros H. unfold hasAccessToFile. now rewrite H. Qed.

Lemma hasAccessToFile_stranger ctx fileId db f :
  db_get fileId db = Some f ->
  hasAccessToOrg ctx (Files.orgId f) = None ->
  hasAccessToFile ctx fileId db = None.
Proof. intros H1 H2. unfold hasAccessToFile. now rewrite H1, H2. Qed.

Lemma hasAccessToFile_member ctx fileId db f user :
  db_get fileId db = Some f ->
  hasAccessToOrg ctx (Files.orgId f) = Some user ->
  hasAccessToFile ctx fileId db = Some (user, f).
Proof. intros H1 H2. unfold hasAccessToFile. now rewrite H1, H2. Qed.

Lemma hasAccessToFile_Some ctx fileId db user f :
  hasAccessToFile ctx fileId db = Some (user, f) ->
  db_get fileId db = Some f /\ hasAccessToOrg ctx (Files.orgId f) = Some user.
Proof.
  unfold hasAccessToFile. destruct (db_get fileId db) as [f'|]; [|discriminate].
  destruct (hasAccessToOrg ctx (Files.orgId f')) as [u|] eqn:E; [|discriminate].
  intros [= <- <-]. now split.
Qed.

Lemma db_get_Some id db f :
  db_get id db = Some f -> In f (files db) /\ Files._id f = id.
Proof.
  unfold db_get. intros H. apply find_some in H as [H1 H2].
  split; [assumption|]. now apply Nat.eqb_eq.
Qed.

Lemma deleteFile_no_access ctx fileId db :
  hasAccessToFile ctx fileId db = None ->
  denied (deleteFile ctx fileId) db "No access to file.".
Proof.
  intros H. unfold denied, mutation, deleteFile, bind, get_db. now rewrite H.
Qed.

Lemma restoreFile_no_access ctx fileId db :
  hasAccessToFile ctx fileId db = None ->
  denied (restoreFile ctx fileId) db "No access to file.".
Proof.
  intros H. unfold denied, mutation, restoreFile, bind, get_db. now rewrite H.
Qed.

Lemma toggleFavorite_no_access ctx fileId db :
  hasAccessToFile ctx fileId db = None ->
  denied (toggleFavorite ctx fileId) db "No access to file.".
Proof.
  intros H. unfold denied, mutation, toggleFavorite, bind, get_db. now rewrite H.
Qed.

(** ** C8: reads degrade to empty, writes fail *)

(** C8: for an actor without a membership in the organization (nobody logged
    in included), [getFiles] and [getAllFavorites] return the empty sequence,
    while [createFile] for that organization and [deleteFile], [restoreFile]
    and [toggleFavorite] on any file of that organization fail with a
    ConvexError and write nothing. *)
Theorem reads_empty_writes_fail ctx orgId db :
  ~ authorizedOrg ctx orgId ->
  (forall args, gf_orgId args = orgId -> getFiles ctx args db = []) /\
  getAllFavorites ctx orgId db = [] /\
  (forall args, cf_orgId args = orgId ->
     denied (createFile ctx args) db
            "You do not have access to this organization.") /\
  (forall fileId f, db_get fileId db = Some f -> Files.orgId f = orgId ->
     denied (deleteFile ctx fileId) db "No access to file." /\
     denied (restoreFile ctx fileId) db "No access to file." /\
     denied (toggleFavorite ctx fileId) db "No access to file.").
Proof.
  intros H. apply hasAccessToOrg_None in H.
  split; [|split; [|split]].
  - intros args <-. now apply getFiles_stranger.
  - unfold getAllFavorites. now rewrite H.
  - intros args <-. now apply createFile_stranger.
  - intros fileId f Hf <-.
    pose proof (hasAccessToFile_stranger ctx fileId db f Hf H) as Hn.
    split; [|split].
    + now apply deleteFile_no_access.
    + now apply restoreFile_no_access.
    + now apply toggleFavorite_no_access.
Qed.

Lemma reads_empty_writes_fail_witness :
  getFiles anonymous (view "acme" None) db_one = [] /\
  getAllFavorites anonymous "acme" db_one = [] /\
  denied (createFile anonymous report_args) db_one
         "You do not have access to this organization." /\
  denied (deleteFile anonymous 10) db_one "No access to file." /\
  denied (restoreFile anonymous 10) db_one "No access to file." /\
  denied (toggleFavorite anonymous 10) db_one "No access to file.".
Proof.
  destruct (reads_empty_writes_fail anonymous "acme" db_one)
    as (H1 & H2 & H3 & H4).
  - intros (user & Hu & _). discriminate Hu.
  - destruct (H4 10 (acme_file 10 "Report.pdf" 100 1 None) eq_refl eq_refl)
      as (H5 & H6 & H7).
    split; [now apply H1|]. split; [exact H2|]. split; [now apply H3|].
    split; [exact H5|]. split; [exact H6|exact H7].
Defined.

(** ** deleteFile and restoreFile *)

Lemma deleteFile_run ctx fileId db :
  mutation (deleteFile ctx fileId) db =
  match hasAccessToFile ctx fileId db with
  | None => (db, inl (ConvexError "No access to file."))
  | Some (user, f) =>
      if canDelete user f
      then (with_files (patched fileId true (files db)) db, inr tt)
      else (db, inl (ConvexError "You do not have access to delete this file."))
  end.
Proof.
  unfold mutation, deleteFile, bind, get_db.
  destruct (hasAccessToFile ctx fileId db) as [[user f]|] eqn:E; [|reflexivity].
  apply hasAccessToFile_Some in E as [E _].
  unfold assertCanDeleteFile. destruct (canDelete user f); cbn; [|reflexivity].
  unfold db_patch_shouldDelete. now rewrite E.
Qed.

Lemma restoreFile_run ctx fileId db :
  mutation (restoreFile ctx fileId) db =
  match hasAccessToFile ctx fileId db with
  | None => (db, inl (ConvexError "No access to file."))
  | Some (user, f) =>
      if canDelete user f
      then (with_files (patched fileId false (files db)) db, inr tt)
      else (db, inl (ConvexError "You do not have access to delete this file."))
  end.
Proof.
  unfold mutation, restoreFile, bind, get_db.
  destruct (hasAccessToFile ctx fileId db) as [[user f]|] eqn:E; [|reflexivity].
  apply hasAccessToFile_Some in E as [E _].
  unfold assertCanDeleteFile. destruct (canDelete user f); cbn; [|reflexivity].
  unfold db_patch_shouldDelete. now rewrite E.
Qed.

Lemma find_patched id b fs :
  find (fun f => Files._id f =? id) (patched id b fs) =
  option_map (set_shouldDelete b) (find (fun f => Files._id f =? id) fs).
Proof.
  induction fs as [|x fs IH]; cbn; [reflexivity|].
  destruct (Files._id x =? id) eqn:E; cbn; rewrite E; [reflexivity|exact IH].
Qed.

Lemma db_get_patched id b db :
  db_get id (with_files (patched id b (files db)) db) =
  option_map (set_shouldDelete b) (db_get id db).
Proof. unfold db_get. cbn. apply find_patched. Qed.

Lemma patched_idem id b fs : patched id b (patched id b fs) = patched id b fs.
Proof.
  unfold patched. rewrite map_map. apply map_ext. intros f.
  destruct (Files._id f =? id) eqn:E; cbn; now rewrite E.
Qed.

Lemma canDelete_set_shouldDelete user b f :
  canDelete user (set_shouldDelete b f) = canDelete user f.
Proof. reflexivity. Qed.

Lemma hasAccessToFile_patched ctx id b db user f :
  hasAccessToFile ctx id db = Some (user, f) ->
  hasAccessToFile ctx id (with_files (patched id b (files db)) db) =
  Some (user, set_shouldDelete b f).
Proof.
  intros H. apply hasAccessToFile_Some in H as [H1 H2].
  apply hasAccessToFile_member.
  - rewrite db_get_patched, H1. reflexivity.
  - exact H2.
Qed.

Lemma isAdminOf_admin user orgId :
  isAdminOf user orgId = true -> admin user orgId.
Proof.
  unfold isAdminOf, admin.
  destruct (find _ _) as [m|] eqn:E; [|discriminate].
  apply find_some in E as [Hin Hm]. intros Hr.
  exists m. repeat split; [assumption| |]; now apply String.eqb_eq.
Qed.

(** With one membership entry per organization, the role the code finds is
    the role the actor holds. *)
Lemma admin_isAdminOf user orgId :
  NoDup (map Users.orgId (Users.orgIds user)) ->
  admin user orgId -> isAdminOf user orgId = true.
Proof.
  unfold isAdminOf, admin. intros Hnd (m & Hin & Ho & Hr).
  induction (Users.orgIds user) as [|x l IH]; [destruct Hin|].
  cbn in *. inversion Hnd as [|? ? Hx Hl]; subst.
  destruct Hin as [-> | Hin].
  - rewrite String.eqb_refl. rewrite Hr. reflexivity.
  - destruct (Users.orgId x =? Users.orgId m)%string eqn:E.
    + apply String.eqb_eq in E. exfalso. apply Hx. rewrite E.
      now apply in_map.
    + now apply IH.
Qed.

Lemma canDelete_true user f :
  canDelete user f = true <->
  Files.userId f = Users._id user \/ isAdminOf user (Files.orgId f) = true.
Proof.
  unfold canDelete. rewrite orb_true_iff, Nat.eqb_eq. reflexivity.
Qed.

(** ** C3: who may delete *)

(** C3, as stated, fails: user 1 owns file 10 but has no membership in its
    organization (any more); [deleteFile] is refused although the actor is
    the owner. *)
Lemma deleteFile_owner_without_membership_refused :
  db_get 10 db_one = Some (acme_file 10 "Report.pdf" 100 1 None) /\
  ~ (outcome (deleteFile (orgless 1) 10) db_one = inr tt <->
     ownerOrAdmin (orgless 1) (acme_file 10 "Report.pdf" 100 1 None)).
Proof.
  split; [reflexivity|].
  intros [_ H].
  assert (ownerOrAdmin (orgless 1) (acme_file 10 "Report.pdf" 100 1 None)) as Ho.
  { eexists. split; [reflexivity|]. left. reflexivity. }
  specialize (H Ho). discriminate H.
Qed.

(** C3, amended: for every actor A and existing file F, [deleteFile(A, F)]
    succeeds if and only if A is logged in, is a member of F's organization,
    and either A's id is F's owner [userId] or the membership entry found for
    F's organization (the first one, with [find]) has the role "admin"; in
    every other case it fails with a ConvexError, "No access to file." or "You
    do not have access to delete this file.", and writes nothing. *)
Theorem deleteFile_succeeds_iff_member_owner_or_admin ctx fileId db f :
  db_get fileId db = Some f ->
  (outcome (deleteFile ctx fileId) db = inr tt <->
   exists user,
     getUser ctx = Some user /\ member user (Files.orgId f) /\
     (Files.userId f = Users._id user \/
      isAdminOf user (Files.orgId f) = true)) /\
  (outcome (deleteFile ctx fileId) db <> inr tt ->
   denied (deleteFile ctx fileId) db "No access to file." \/
   denied (deleteFile ctx fileId) db
          "You do not have access to delete this file.").
Proof.
  intros Hf. unfold outcome, denied. rewrite deleteFile_run.
  destruct (hasAccessToOrg ctx (Files.orgId f)) as [user|] eqn:E.
  - rewrite (hasAccessToFile_member _ _ _ _ _ Hf E).
    apply hasAccessToOrg_Some in E as [Hu Hm].
    destruct (canDelete user f) eqn:C; cbn.
    + split; [|congruence]. split; [|reflexivity].
      intros _. exists user. repeat split; try assumption.
      now apply canDelete_true.
    + split; [|now right]. split; [discriminate|].
      intros (u & Hu' & _ & Hc). assert (u = user) as -> by congruence.
      apply canDelete_true in Hc. congruence.
  - rewrite (hasAccessToFile_stranger _ _ _ _ Hf E). cbn.
    split; [|now left]. split; [discriminate|].
    intros (u & Hu & Hm & _).
    assert (hasAccessToOrg ctx (Files.orgId f) = Some u)
      by now apply hasAccessToOrg_Some.
    congruence.
Qed.

Lemma deleteFile_succeeds_iff_member_owner_or_admin_witness :
  outcome (deleteFile (acme_admin 2) 10) db_one = inr tt /\
  denied (deleteFile (acme_member 2) 10) db_one
         "You do not have access to delete this file.".
Proof.
  destruct (deleteFile_succeeds_iff_member_owner_or_admin
              (acme_admin 2) 10 db_one _ eq_refl) as [[_ H] _].
  destruct (deleteFile_succeeds_iff_member_owner_or_admin
              (acme_member 2) 10 db_one _ eq_refl) as [_ H'].
  split.
  - apply H. eexists. split; [reflexivity|]. split.
    + eexists. split; [left; reflexivity|reflexivity].
    + right. reflexivity.
  - destruct H' as [H' | H']; [discriminate | discriminate H' | exact H'].
Defined.

(** ** C4: the failures of deleteFile and restoreFile *)

(** C4, as stated, fails: for an actor outside the organization, a file id
    that references no file and the id of an existing file are refused with
    one and the same failure, by [deleteFile] and by [restoreFile]. *)
Lemma missing_and_foreign_file_same_failure :
  db_get 99 db_one = None /\
  db_get 10 db_one = Some (acme_file 10 "Report.pdf" 100 1 None) /\
  outcome (deleteFile (outsider 3) 99) db_one =
  outcome (deleteFile (outsider 3) 10) db_one /\
  outcome (restoreFile (outsider 3) 99) db_one =
  outcome (restoreFile (outsider 3) 10) db_one.
Proof. repeat split. Qed.

(** C4, amended: [deleteFile] and [restoreFile] fail with the ConvexError "No
    access to file." both for a file id that references no file and for an
    existing file of an organization the actor is not a member of, and with
    the distinct ConvexError "You do not have access to delete this file." for
    an existing file of the actor's organization of which the actor is
    neither owner nor admin; in each case nothing is written. *)
Theorem deleteFile_restoreFile_failures ctx fileId db :
  (db_get fileId db = None ->
   denied (deleteFile ctx fileId) db "No access to file." /\
   denied (restoreFile ctx fileId) db "No access to file.") /\
  (forall f, db_get fileId db = Some f ->
             ~ authorizedOrg ctx (Files.orgId f) ->
   denied (deleteFile ctx fileId) db "No access to file." /\
   denied (restoreFile ctx fileId) db "No access to file.") /\
  (forall f user, db_get fileId db = Some f ->
                  getUser ctx = Some user -> member user (Files.orgId f) ->
                  Files.userId f <> Users._id user ->
                  isAdminOf user (Files.orgId f) = false ->
   denied (deleteFile ctx fileId) db
          "You do not have access to delete this file." /\
   denied (restoreFile ctx fileId) db
          "You do not have access to delete this file.").
Proof.
  split; [|split].
  - intros H. apply (hasAccessToFile_missing ctx) in H.
    split; [now apply deleteFile_no_access|now apply restoreFile_no_access].
  - intros f Hf Hn. apply hasAccessToOrg_None in Hn.
    pose proof (hasAccessToFile_stranger _ _ _ _ Hf Hn) as H.
    split; [now apply deleteFile_no_access|now apply restoreFile_no_access].
  - intros f user Hf Hu Hm Ho Ha.
    assert (hasAccessToOrg ctx (Files.orgId f) = Some user) as E
        by now apply hasAccessToOrg_Some.
    pose proof (hasAccessToFile_member _ _ _ _ _ Hf E) as H.
    assert (canDelete user f = false) as C.
    { unfold canDelete. rewrite Ha, orb_false_r. now apply Nat.eqb_neq. }
    unfold denied. rewrite deleteFile_run, restoreFile_run, H, C. now split.
Qed.

Lemma deleteFile_restoreFile_failures_witness :
  denied (deleteFile (acme_member 2) 99) db_one "No access to file." /\
  denied (restoreFile (outsider 3) 10) db_one "No access to file." /\
  denied (deleteFile (acme_member 2) 10) db_one
         "You do not have access to delete this file.".
Proof.
  destruct (deleteFile_restoreFile_failures (acme_member 2) 99 db_one)
    as (H1 & _ & _).
  destruct (deleteFile_restoreFile_failures (outsider 3) 10 db_one)
    as (_ & H2 & _).
  destruct (deleteFile_restoreFile_failures (acme_member 2) 10 db_one)
    as (_ & _ & H3).
  split; [apply H1; reflexivity|]. split.
  - apply (H2 _ eq_refl).
    intros (user & Hu & m & Hin & Hm). injection Hu as <-.
    cbn in Hin. destruct Hin as [<- | []]. discriminate Hm.
  - apply (H3 _ _ eq_refl eq_refl).
    + eexists. split; [left; reflexivity|reflexivity].
    + cbn. discriminate.
    + reflexivity.
Defined.

(** ** C6: idempotence *)

(** C6: for an existing file and an actor authorized to delete it (a member
    of its organization who owns it or is admin there), [deleteFile] succeeds
    and leaves [shouldDelete] true, and a second [deleteFile] succeeds and
    leaves the store exactly as the first did; likewise [restoreFile], with
    false. *)
Theorem deleteFile_restoreFile_idempotent ctx fileId db f user :
  db_get fileId db = Some f ->
  getUser ctx = Some user ->
  member user (Files.orgId f) ->
  Files.userId f = Users._id user \/ isAdminOf user (Files.orgId f) = true ->
  (exists db1 f1,
      mutation (deleteFile ctx fileId) db = (db1, inr tt) /\
      mutation (deleteFile ctx fileId) db1 = (db1, inr tt) /\
      db_get fileId db1 = Some f1 /\ Files.shouldDelete f1 = Some true) /\
  (exists db1 f1,
      mutation (restoreFile ctx fileId) db = (db1, inr tt) /\
      mutation (restoreFile ctx fileId) db1 = (db1, inr tt) /\
      db_get fileId db1 = Some f1 /\ Files.shouldDelete f1 = Some false).
Proof.
  intros Hf Hu Hm Hc. apply canDelete_true in Hc.
  assert (hasAccessToOrg ctx (Files.orgId f) = Some user) as E
      by now apply hasAccessToOrg_Some.
  pose proof (hasAccessToFile_member _ _ _ _ _ Hf E) as H.
  split.
  - exists (with_files (patched fileId true (files db)) db),
           (set_shouldDelete true f).
    rewrite !deleteFile_run, H, Hc.
    rewrite (hasAccessToFile_patched _ _ true _ _ _ H).
    rewrite canDelete_set_shouldDelete, Hc, db_get_patched, Hf.
    unfold with_files. cbn [files favorites storage nextId option_map].
    rewrite patched_idem. repeat split.
  - exists (with_files (patched fileId false (files db)) db),
           (set_shouldDelete false f).
    rewrite !restoreFile_run, H, Hc.
    rewrite (hasAccessToFile_patched _ _ false _ _ _ H).
    rewrite canDelete_set_shouldDelete, Hc, db_get_patched, Hf.
    unfold with_files. cbn [files favorites storage nextId option_map].
    rewrite patched_idem. repeat split.
Qed.

Lemma deleteFile_restoreFile_idempotent_witness :
  exists db1 f1,
    mutation (deleteFile (acme_member 1) 10) db_one = (db1, inr tt) /\
    mutation (deleteFile (acme_member 1) 10) db1 = (db1, inr tt) /\
    db_get 10 db1 = Some f1 /\ Files.shouldDelete f1 = Some true.
Proof.
  apply (deleteFile_restoreFile_idempotent (acme_member 1) 10 db_one
           (acme_file 10 "Report.pdf" 100 1 None)
           {| Users._id := 1;
              Users.orgIds := [ {| Users.orgId := "acme";
                                   Users.role := "member" |} ] |}).
  - reflexivity.
  - reflexivity.
  - eexists. split; [left; reflexivity|reflexivity].
  - left. reflexivity.
Defined.

(** ** The purge sweep *)

Lemma purgeFile_run f db :
  purgeFile f db =
  if existsb (Nat.eqb (Files.fileId f)) (storage db)
  then match db_get (Files._id f) db with
       | None => inl (DocNotFound (Files._id f))
       | Some _ =>
           inr (tt, {| files := filter (fun g => negb (Files._id g =? Files._id f))
                                       (files db);
                       favorites := favorites db;
                       storage := filter (fun s => negb (s =? Files.fileId f))
                                         (storage db);
                       nextId := nextId db |})
       end
  else inl (BlobUnavailable (Files.fileId f)).
Proof.
  unfold purgeFile, bind, storage_delete.
  destruct (existsb (Nat.eqb (Files.fileId f)) (storage db)); [|reflexivity].
  unfold db_delete_file, db_get. cbn [files].
  destruct (find (fun g => Files._id g =? Files._id f) (files db)); reflexivity.
Qed.

Lemma existsb_eqb_In x l : existsb (Nat.eqb x) l = true <-> In x l.
Proof.
  rewrite existsb_exists. split.
  - intros (y & Hy & E). apply Nat.eqb_eq in E. now subst.
  - intros H. exists x. split; [assumption|apply Nat.eqb_refl].
Qed.

Lemma db_get_In f db : In f (files db) -> db_get (Files._id f) db <> None.
Proof.
  intros H E. unfold db_get in E.
  apply (find_none _ _ E) in H. now rewrite Nat.eqb_refl in H.
Qed.

(** What one successful item of the sweep does to the store. *)
Lemma purgeFile_ok f db db' :
  purgeFile f db = inr (tt, db') ->
  In (Files.fileId f) (storage db) /\
  files db' = filter (fun g => negb (Files._id g =? Files._id f)) (files db) /\
  storage db' = filter (fun s => negb (s =? Files.fileId f)) (storage db) /\
  favorites db' = favorites db /\ nextId db' = nextId db.
Proof.
  rewrite purgeFile_run.
  destruct (existsb _ _) eqn:E; [|discriminate].
  destruct (db_get _ _); [|discriminate].
  intros [= <-]. apply existsb_eqb_In in E. now repeat split.
Qed.

(** An item fails exactly on its blob, as long as its record is there. *)
Lemma purgeFile_fails f db e :
  In f (files db) -> purgeFile f db = inl e ->
  e = BlobUnavailable (Files.fileId f) /\ ~ In (Files.fileId f) (storage db).
Proof.
  intros Hin. rewrite purgeFile_run.
  destruct (existsb _ _) eqn:E.
  - destruct (db_get _ _) eqn:G; [discriminate|].
    now apply db_get_In in Hin.
  - intros [= <-]. split; [reflexivity|].
    intros H. apply existsb_eqb_In in H. congruence.
Qed.

Lemma purgeFile_succeeds f db :
  In f (files db) -> In (Files.fileId f) (storage db) ->
  exists db', purgeFile f db = inr (tt, db').
Proof.
  intros Hin Hs. rewrite purgeFile_run.
  apply existsb_eqb_In in Hs. rewrite Hs.
  destruct (db_get _ _) eqn:G; [eauto|]. now apply db_get_In in Hin.
Qed.

(** The records and blobs that are left when the items [l] are purged. *)
Lemma forEach_purgeFile_ok l : forall db db',
  forEach purgeFile l db = inr (tt, db') ->
  files db' = filter (fun g => negb (existsb (Nat.eqb (Files._id g))
                                             (map Files._id l))) (files db) /\
  storage db' = filter (fun s => negb (existsb (Nat.eqb s)
                                               (map Files.fileId l)))
                       (storage db) /\
  favorites db' = favorites db /\ nextId db' = nextId db.
Proof.
  induction l as [|x l IH]; intros db db'; cbn.
  - intros [= <-]. repeat split; symmetry; now apply filter_all.
  - unfold bind. destruct (purgeFile x db) as [e|[[] db1]] eqn:P; [discriminate|].
    intros H. apply IH in H as (H1 & H2 & H3 & H4).
    apply purgeFile_ok in P as (_ & P1 & P2 & P3 & P4).
    rewrite H1, H2, H3, H4, P1, P2, P3, P4. rewrite !filter_filter_and.
    repeat split; apply filter_ext; intros a; rewrite negb_orb.
    + now rewrite (Nat.eqb_sym (Files._id a)).
    + reflexivity.
Qed.

Lemma NoDup_map_filter {A B} (g : A -> B) (p : A -> bool) (l : list A) :
  NoDup (map g l) -> NoDup (map g (filter p l)).
Proof.
  induction l as [|x l IH]; cbn; intros H; [constructor|].
  inversion H as [|? ? Hx Hl]; subst.
  destruct (p x); cbn; [|now apply IH].
  constructor; [|now apply IH].
  intros Hin. apply Hx. apply in_map_iff in Hin as (y & <- & Hy).
  apply in_map. now apply filter_In in Hy as [Hy _].
Qed.

Lemma NoDup_map_eq {A B} (g : A -> B) (l : list A) x y :
  NoDup (map g l) -> In x l -> In y l -> g x = g y -> x = y.
Proof.
  induction l as [|a l IH]; cbn; intros H Hx Hy E; [destruct Hx|].
  inversion H as [|? ? Ha Hl]; subst.
  destruct Hx as [-> | Hx], Hy as [-> | Hy]; try reflexivity.
  - exfalso. apply Ha. rewrite E. now apply in_map.
  - exfalso. apply Ha. rewrite <- E. now apply in_map.
  - now apply IH.
Qed.

(** When the sweep fails, it fails on the blob of one of its items. *)
Lemma forEach_purgeFile_fails l : forall db e,
  NoDup (map Files._id l) -> incl l (files db) ->
  forEach purgeFile l db = inl e ->
  exists f, In f l /\ e = BlobUnavailable (Files.fileId f).
Proof.
  induction l as [|x l IH]; intros db e Hnd Hin; cbn; [discriminate|].
  inversion Hnd as [|? ? Hx Hl]; subst.
  unfold bind. destruct (purgeFile x db) as [e'|[[] db1]] eqn:P.
  - intros [= <-]. apply purgeFile_fails in P as [-> _].
    + exists x. split; [now left|reflexivity].
    + apply Hin. now left.
  - intros H. apply purgeFile_ok in P as (_ & P1 & _).
    destruct (IH db1 e Hl) as (f & Hf & He); [|assumption|].
    + intros g Hg. rewrite P1. apply filter_In. split.
      * apply Hin. now right.
      * apply negb_true_iff, Nat.eqb_neq. intros E. apply Hx.
        rewrite <- E. now apply in_map.
    + exists f. split; [now right|assumption].
Qed.

(** An item whose blob is gone makes the sweep fail. *)
Lemma forEach_purgeFile_blocked l : forall db,
  (exists f, In f l /\ ~ In (Files.fileId f) (storage db)) ->
  exists e, forEach purgeFile l db = inl e.
Proof.
  induction l as [|x l IH]; intros db (f & Hf & Hn); [destruct Hf|].
  cbn. unfold bind. destruct (purgeFile x db) as [e'|[[] db1]] eqn:P; [eauto|].
  apply purgeFile_ok in P as (Px & _ & P2 & _).
  apply IH. destruct Hf as [-> | Hf]; [contradiction|].
  exists f. split; [assumption|]. rewrite P2. intros H.
  apply filter_In in H as [H _]. contradiction.
Qed.

(** With every blob in place and no blob shared, the sweep goes through. *)
Lemma forEach_purgeFile_succeeds l : forall db,
  NoDup (map Files._id l) -> incl l (files db) ->
  NoDup (map Files.fileId l) ->
  (forall f, In f l -> In (Files.fileId f) (storage db)) ->
  exists db', forEach purgeFile l db = inr (tt, db').
Proof.
  induction l as [|x l IH]; intros db Hnd Hin Hb Hs; cbn; [now eexists|].
  inversion Hnd as [|? ? Hx Hl]; subst. inversion Hb as [|? ? Hbx Hbl]; subst.
  destruct (purgeFile_succeeds x db) as (db1 & P).
  { apply Hin. now left. }
  { apply Hs. now left. }
  unfold bind. rewrite P.
  apply purgeFile_ok in P as (_ & P1 & P2 & _).
  apply IH; try assumption.
  - intros g Hg. rewrite P1. apply filter_In. split.
    + apply Hin. now right.
    + apply negb_true_iff, Nat.eqb_neq. intros E. apply Hx.
      rewrite <- E. now apply in_map.
  - intros g Hg. rewrite P2. apply filter_In. split.
    + apply Hs. now right.
    + apply negb_true_iff, Nat.eqb_neq. intros E. apply Hbx.
      rewrite <- E. now apply in_map.
Qed.

Lemma flagged_ids db :
  NoDup (map Files._id (files db)) ->
  forall g, In g (files db) ->
    existsb (Nat.eqb (Files._id g))
            (map Files._id (files_by_shouldDelete_true db)) = isFlagged g.
Proof.
  intros Hnd g Hg. unfold files_by_shouldDelete_true.
  destruct (isFlagged g) eqn:F.
  - apply existsb_eqb_In. apply in_map. now apply filter_In.
  - destruct (existsb _ _) eqn:E; [|reflexivity].
    apply existsb_eqb_In in E. apply in_map_iff in E as (h & Hid & Hh).
    apply filter_In in Hh as [Hh Hf].
    assert (h = g) by now apply (NoDup_map_eq Files._id (files db)).
    congruence.
Qed.

Lemma deleteAllFiles_run db :
  deleteAllFiles db = forEach purgeFile (files_by_shouldDelete_true db) db.
Proof. reflexivity. Qed.

(** ** C1: the purge sweep is all-or-nothing *)

(** C1, as stated, fails: with two flagged files, the blob of the first
    already gone, the callback of the failing item throws before it reaches
    the record, the sweep fails as a whole, and both File records and the
    second file's blob are still there afterwards. *)
Lemma purge_blocked_by_missing_blob :
  purgeFile (acme_file 10 "a.pdf" 100 1 (Some true)) db_flagged
  = inl (BlobUnavailable 100) /\
  mutation deleteAllFiles db_flagged = (db_flagged, inl (BlobUnavailable 100)) /\
  In (acme_file 10 "a.pdf" 100 1 (Some true))
     (files (after deleteAllFiles db_flagged)) /\
  In (acme_file 11 "b.pdf" 101 1 (Some true))
     (files (after deleteAllFiles db_flagged)) /\
  In 101 (storage (after deleteAllFiles db_flagged)) /\
  ~ purge_independent db_flagged.
Proof.
  split; [reflexivity|]. split; [reflexivity|].
  split; [now left|]. split; [right; now left|]. split; [now left|].
  intros H.
  destruct (H (acme_file 10 "a.pdf" 100 1 (Some true))) as [H1 _].
  - now left.
  - apply H1. now left.
Qed.

(** C1, amended: the sweep is one all-or-nothing unit. When the blob of some
    flagged file cannot be deleted, [deleteAllFiles] fails with that
    BlobUnavailable and removes no blob and no File record; when every
    flagged file has its blob and no two flagged files share one, it
    succeeds, removes exactly the flagged records and their blobs, and
    leaves the other files and the favorites as they were. *)
Theorem deleteAllFiles_all_or_nothing db :
  NoDup (map Files._id (files db)) ->
  ((exists f, In f (files_by_shouldDelete_true db) /\
              ~ In (Files.fileId f) (storage db)) ->
   exists f, In f (files_by_shouldDelete_true db) /\
             mutation deleteAllFiles db =
             (db, inl (BlobUnavailable (Files.fileId f)))) /\
  ((forall f, In f (files_by_shouldDelete_true db) ->
              In (Files.fileId f) (storage db)) ->
   NoDup (map Files.fileId (files_by_shouldDelete_true db)) ->
   exists db',
     mutation deleteAllFiles db = (db', inr tt) /\
     files db' = filter (fun f => negb (isFlagged f)) (files db) /\
     storage db' =
     filter (fun s => negb (existsb (Nat.eqb s)
                              (map Files.fileId (files_by_shouldDelete_true db))))
            (storage db) /\
     favorites db' = favorites db).
Proof.
  intros Hnd.
  assert (NoDup (map Files._id (files_by_shouldDelete_true db))) as Hnf
      by now apply NoDup_map_filter.
  assert (incl (files_by_shouldDelete_true db) (files db)) as Hin.
  { intros f Hf. now apply filter_In in Hf as [Hf _]. }
  unfold mutation. rewrite deleteAllFiles_run. split.
  - intros Hb. apply forEach_purgeFile_blocked in Hb as (e & He).
    destruct (forEach_purgeFile_fails _ _ _ Hnf Hin He) as (f & Hf & ->).
    exists f. split; [assumption|]. now rewrite He.
  - intros Hs Hbl.
    destruct (forEach_purgeFile_succeeds _ db Hnf Hin Hbl Hs) as (db' & H).
    exists db'. rewrite H. split; [reflexivity|].
    apply forEach_purgeFile_ok in H as (H1 & H2 & H3 & _).
    split; [|split; assumption].
    rewrite H1. apply filter_ext_in. intros g Hg.
    now rewrite (flagged_ids db Hnd g Hg).
Qed.

Lemma deleteAllFiles_all_or_nothing_witness :
  (exists f, In f (files_by_shouldDelete_true db_flagged) /\
             mutation deleteAllFiles db_flagged =
             (db_flagged, inl (BlobUnavailable (Files.fileId f)))) /\
  (exists db',
      mutation deleteAllFiles db_sweepable = (db', inr tt) /\
      files db' = [acme_file 11 "b.pdf" 101 1 None] /\
      storage db' = [101]).
Proof.
  split.
  - apply (deleteAllFiles_all_or_nothing db_flagged).
    + cbn. repeat constructor; cbn; intuition discriminate.
    + exists (acme_file 10 "a.pdf" 100 1 (Some true)).
      split; [now left|]. cbn. intuition discriminate.
  - destruct (deleteAllFiles_all_or_nothing db_sweepable) as [_ H].
    + cbn. repeat constructor; cbn; intuition discriminate.
    + destruct H as (db' & H1 & H2 & H3 & _).
      * intros f Hf. cbn in Hf.
        destruct Hf as [<- | [<- | []]]; cbn; intuition.
      * cbn. repeat constructor; cbn; intuition discriminate.
      * exists db'. split; [exact H1|]. split; [exact H2|exact H3].
Defined.

(** ** toggleFavorite *)

Lemma toggleFavorite_run ctx fileId db :
  mutation (toggleFavorite ctx fileId) db =
  match hasAccessToFile ctx fileId db with
  | None => (db, inl (ConvexError "No access to file."))
  | Some (user, f) =>
      match favorite_first (Users._id user) (Files.orgId f) (Files._id f) db with
      | None =>
          ({| files := files db;
              favorites := favorites db ++
                           [ {| Favorites._id := nextId db;
                                Favorites.fileId := Files._id f;
                                Favorites.userId := Users._id user;
                                Favorites.orgId := Files.orgId f |} ];
              storage := storage db;
              nextId := S (nextId db) |}, inr tt)
      | Some fav =>
          (with_favorites
             (filter (fun g => negb (Favorites._id g =? Favorites._id fav))
                     (favorites db)) db, inr tt)
      end
  end.
Proof.
  unfold mutation, toggleFavorite, bind, get_db.
  destruct (hasAccessToFile ctx fileId db) as [[user f]|]; [|reflexivity].
  destruct (favorite_first _ _ _ db) as [fav|] eqn:E; [|reflexivity].
  unfold db_delete_favorite.
  assert (existsb (fun g => Favorites._id g =? Favorites._id fav)
                  (favorites db) = true) as ->; [|reflexivity].
  apply find_some in E as [E _]. apply existsb_exists.
  exists fav. split; [assumption|apply Nat.eqb_refl].
Qed.

Lemma find_app_none {A} (p : A -> bool) l x :
  find p l = None -> find p (l ++ [x]) = if p x then Some x else None.
Proof.
  induction l as [|a l IH]; cbn; [reflexivity|].
  destruct (p a); [discriminate|exact IH].
Qed.

(** The Favorites of a pair are the records with its key. *)
Lemma favorites_of_key userId fileId fav :
  (Favorites.userId fav =? userId) && (Favorites.fileId fav =? fileId) = true
  <-> fav_key fav = (userId, fileId).
Proof.
  unfold fav_key. rewrite andb_true_iff, !Nat.eqb_eq.
  split; [intros [-> ->]; reflexivity|intros [= -> ->]; now split].
Qed.

Lemma In_favorites_of userId fileId db fav :
  In fav (favorites_of userId fileId db) <->
  In fav (favorites db) /\ fav_key fav = (userId, fileId).
Proof.
  unfold favorites_of. rewrite filter_In, favorites_of_key. reflexivity.
Qed.

(** In a well-formed store, the index lookup of [toggleFavorite] on
    (userId, orgId, fileId) sees the Favorites of the pair. *)
Lemma lookup_is_pair db f userId fav :
  wf db -> In f (files db) -> In fav (favorites db) ->
  (Favorites.userId fav =? userId) &&
  (Favorites.orgId fav =? Files.orgId f)%string &&
  (Favorites.fileId fav =? Files._id f)
  = (Favorites.userId fav =? userId) && (Favorites.fileId fav =? Files._id f).
Proof.
  intros W Hf Hfav.
  destruct (Favorites.fileId fav =? Files._id f) eqn:E;
    [|now rewrite !andb_false_r].
  apply Nat.eqb_eq in E.
  rewrite (wf_fav_org db W fav f Hfav Hf E), String.eqb_refl.
  now rewrite !andb_true_r.
Qed.

Lemma nil_of_no_member {A} (l : list A) : (forall x, ~ In x l) -> l = [].
Proof.
  destruct l as [|x l]; [reflexivity|]. intros H. exfalso. apply (H x). now left.
Qed.

Lemma favorite_first_None db f userId :
  wf db -> In f (files db) ->
  favorite_first userId (Files.orgId f) (Files._id f) db = None ->
  favorites_of userId (Files._id f) db = [].
Proof.
  intros W Hf E. apply nil_of_no_member. intros fav Hin.
  unfold favorites_of in Hin. apply filter_In in Hin as [Hin HK].
  unfold favorite_first in E. apply (find_none _ _ E) in Hin as HP.
  rewrite (lookup_is_pair db f userId fav W Hf Hin) in HP. congruence.
Qed.

Lemma favorite_first_Some db userId orgId fileId fav :
  unique_favorites db ->
  favorite_first userId orgId fileId db = Some fav ->
  favorites_of userId fileId db = [fav] /\
  favorites_of userId fileId
    (with_favorites (filter (fun g => negb (Favorites._id g =? Favorites._id fav))
                            (favorites db)) db) = [].
Proof.
  intros U E. unfold favorite_first in E. apply find_some in E as [Hin HP].
  assert (fav_key fav = (userId, fileId)) as HK.
  { apply favorites_of_key.
    apply andb_true_iff in HP as [HP ->]. apply andb_true_iff in HP as [-> _].
    reflexivity. }
  assert (forall g, In g (favorites_of userId fileId db) -> g = fav) as Hall.
  { intros g Hg. apply In_favorites_of in Hg as [Hg Hk].
    apply (NoDup_map_eq fav_key (favorites db) g fav U Hg Hin).
    now rewrite Hk, HK. }
  split.
  - assert (NoDup (favorites_of userId fileId db)) as Hnd.
    { unfold favorites_of. apply NoDup_filter.
      apply NoDup_map_inv with (f := fav_key). exact U. }
    assert (In fav (favorites_of userId fileId db)) as Hfav
        by now apply In_favorites_of.
    destruct (favorites_of userId fileId db) as [|a [|b l]].
    + destruct Hfav.
    + f_equal. apply Hall. now left.
    + exfalso. inversion Hnd as [|? ? Ha _]; subst. apply Ha.
      rewrite (Hall a), (Hall b); [now left|right; now left|now left].
  - apply nil_of_no_member. intros g Hg.
    apply In_favorites_of in Hg as [Hg Hk]. cbn in Hg.
    apply filter_In in Hg as [Hg Hid].
    assert (g = fav) as ->.
    { apply Hall. now apply In_favorites_of. }
    now rewrite Nat.eqb_refl in Hid.
Qed.

Lemma hasAccessToFile_same_files ctx fileId db db' :
  files db' = files db ->
  hasAccessToFile ctx fileId db' = hasAccessToFile ctx fileId db.
Proof. intros H. unfold hasAccessToFile, db_get. now rewrite H. Qed.

Lemma find_none_of {A} (p : A -> bool) l :
  (forall x, In x l -> p x = false) -> find p l = None.
Proof.
  induction l as [|a l IH]; cbn; intros H; [reflexivity|].
  rewrite (H a (or_introl eq_refl)). apply IH. intros x Hx. apply H. now right.
Qed.

Lemma favorite_first_of_none userId orgId fileId db :
  favorites_of userId fileId db = [] ->
  favorite_first userId orgId fileId db = None.
Proof.
  intros H. unfold favorite_first. apply find_none_of. intros fav Hin.
  destruct (_ && _ && _) eqn:E; [|reflexivity]. exfalso.
  apply andb_true_iff in E as [E E3]. apply andb_true_iff in E as [E1 _].
  assert (In fav (favorites_of userId fileId db)) as Hf.
  { unfold favorites_of. apply filter_In. split; [assumption|].
    now rewrite E1, E3. }
  rewrite H in Hf. destruct Hf.
Qed.

Lemma wf_db_one : wf db_one.
Proof.
  constructor; cbn.
  - intros fav [].
  - repeat constructor. cbn. tauto.
  - intros f [<- | []]. cbn. lia.
  - intros fav [].
  - intros fav f [].
  - constructor.
Qed.

(** ** C7: toggling twice *)

(** C7: in a store whose Favorite records are unique per (userId, fileId)
    and carry ids the store has issued, for an actor A with read access to
    the file F (F exists and A is a member of its organization), two
    [toggleFavorite] calls in a row both succeed and leave as many (A, F)
    Favorite records as there were before; and when there was none, the
    first call leaves exactly one. *)
Theorem toggleFavorite_twice_restores ctx fileId db user f :
  unique_favorites db ->
  favorites_issued db ->
  db_get fileId db = Some f ->
  getUser ctx = Some user ->
  member user (Files.orgId f) ->
  exists db1 db2,
    mutation (toggleFavorite ctx fileId) db = (db1, inr tt) /\
    mutation (toggleFavorite ctx fileId) db1 = (db2, inr tt) /\
    List.length (favorites_of (Users._id user) fileId db2) =
    List.length (favorites_of (Users._id user) fileId db) /\
    (favorites_of (Users._id user) fileId db = [] ->
     List.length (favorites_of (Users._id user) fileId db1) = 1).
Proof.
  intros U I Hf Hu Hm.
  assert (hasAccessToOrg ctx (Files.orgId f) = Some user) as E
      by now apply hasAccessToOrg_Some.
  pose proof (hasAccessToFile_member _ _ _ _ _ Hf E) as H.
  apply db_get_Some in Hf as [Hin <-].
  rewrite toggleFavorite_run, H.
  destruct (favorite_first (Users._id user) (Files.orgId f) (Files._id f) db)
    as [fav|] eqn:F.
  - destruct (favorite_first_Some db _ _ _ fav U F) as [H0 H1].
    eexists. eexists. split; [reflexivity|].
    rewrite toggleFavorite_run.
    rewrite (hasAccessToFile_same_files ctx (Files._id f) db) by reflexivity.
    rewrite H, (favorite_first_of_none _ _ _ _ H1).
    split; [reflexivity|]. rewrite H0. split; [|discriminate].
    unfold favorites_of in *. cbn [favorites with_favorites] in *.
    rewrite filter_app, H1. cbn. now rewrite !Nat.eqb_refl.
  - eexists. eexists. split; [reflexivity|].
    rewrite toggleFavorite_run.
    rewrite (hasAccessToFile_same_files ctx (Files._id f) db) by reflexivity.
    rewrite H. unfold favorite_first in *. cbn [favorites] in *.
    rewrite (find_app_none _ _ _ F). cbn [Favorites.userId Favorites.orgId
                                          Favorites.fileId Favorites._id].
    rewrite !Nat.eqb_refl, String.eqb_refl. cbn [andb].
    split; [reflexivity|].
    unfold favorites_of. cbn [favorites with_favorites].
    rewrite !filter_app. cbn. rewrite !Nat.eqb_refl. cbn.
    rewrite app_nil_r. split.
    + f_equal. f_equal. apply filter_all. intros g Hg.
      apply negb_true_iff, Nat.eqb_neq. specialize (I g Hg). lia.
    + intros ->. reflexivity.
Qed.

Lemma toggleFavorite_twice_restores_witness :
  exists db1 db2,
    mutation (toggleFavorite (acme_member 2) 10) db_one = (db1, inr tt) /\
    mutation (toggleFavorite (acme_member 2) 10) db1 = (db2, inr tt) /\
    List.length (favorites_of 2 10 db2) = List.length (favorites_of 2 10 db_one) /\
    (favorites_of 2 10 db_one = [] -> List.length (favorites_of 2 10 db1) = 1).
Proof.
  apply (toggleFavorite_twice_restores (acme_member 2) 10 db_one
           {| Users._id := 2;
              Users.orgIds := [ {| Users.orgId := "acme";
                                   Users.role := "member" |} ] |}
           (acme_file 10 "Report.pdf" 100 1 None)).
  - constructor.
  - intros fav [].
  - reflexivity.
  - reflexivity.
  - eexists. split; [left; reflexivity|reflexivity].
Defined.

(** ** The invariant of the store *)

Lemma wf_empty : wf empty_db.
Proof.
  constructor; cbn.
  - intros fav [].
  - constructor.
  - intros f [].
  - intros fav [].
  - intros fav f [].
  - constructor.
Qed.

(** A mutation that keeps the favorites and the id counter, and keeps or
    drops files without touching their [_id] and [orgId], keeps the
    invariant. *)
Lemma wf_files_changed db db' :
  wf db ->
  favorites db' = favorites db ->
  nextId db' = nextId db ->
  NoDup (map Files._id (files db')) ->
  (forall g, In g (files db') ->
             exists g0, In g0 (files db) /\ Files._id g = Files._id g0 /\
                        Files.orgId g = Files.orgId g0) ->
  wf db'.
Proof.
  intros W Hfav Hn Hnd Hfiles. constructor.
  - unfold favorites_issued. rewrite Hfav, Hn. apply (wf_fav_ids db W).
  - exact Hnd.
  - intros g Hg. destruct (Hfiles g Hg) as (g0 & Hg0 & -> & _).
    rewrite Hn. now apply (wf_file_issued db W).
  - rewrite Hfav, Hn. apply (wf_fav_issued db W).
  - rewrite Hfav. intros fav g Hfav' Hg Heq.
    destruct (Hfiles g Hg) as (g0 & Hg0 & Hid & ->).
    apply (wf_fav_org db W); congruence.
  - unfold unique_favorites. rewrite Hfav. apply (wf_unique db W).
Qed.

Lemma wf_createFile ctx args db : wf db -> wf (after (createFile ctx args) db).
Proof.
  intros W. unfold after.
  destruct (hasAccessToOrg ctx (cf_orgId args)) as [user|] eqn:E.
  - rewrite (createFile_member _ _ db _ E). cbn [fst]. constructor; unfold favorites_issued, unique_favorites; cbn.
    + intros fav Hfav. apply (wf_fav_ids db W) in Hfav. lia.
    + rewrite map_app. cbn. apply NoDup_app.
      * apply (wf_file_ids db W).
      * repeat constructor. intros [].
      * intros a Ha [<- | []]. apply in_map_iff in Ha as (g & Hid & Hg).
        apply (wf_file_issued db W) in Hg. lia.
    + intros g Hg. apply in_app_or in Hg as [Hg | [<- | []]]; cbn.
      * apply (wf_file_issued db W) in Hg. lia.
      * lia.
    + intros fav Hfav. apply (wf_fav_issued db W) in Hfav. lia.
    + intros fav g Hfav Hg Heq. apply in_app_or in Hg as [Hg | [<- | []]].
      * now apply (wf_fav_org db W).
      * cbn in Heq. apply (wf_fav_issued db W) in Hfav. lia.
    + apply (wf_unique db W).
  - now rewrite (createFile_stranger _ _ db E).
Qed.

Lemma patched_ids id b fs : map Files._id (patched id b fs) = map Files._id fs.
Proof.
  unfold patched. rewrite map_map. apply map_ext. intros f.
  now destruct (Files._id f =? id).
Qed.

Lemma wf_patched id b db : wf db -> wf (with_files (patched id b (files db)) db).
Proof.
  intros W. apply (wf_files_changed db); try reflexivity; [assumption| |].
  - cbn. rewrite patched_ids. apply (wf_file_ids db W).
  - cbn. intros g Hg. unfold patched in Hg.
    apply in_map_iff in Hg as (g0 & <- & Hg0). exists g0.
    split; [assumption|]. now destruct (Files._id g0 =? id).
Qed.

Lemma wf_deleteFile ctx fileId db : wf db -> wf (after (deleteFile ctx fileId) db).
Proof.
  intros W. unfold after. rewrite deleteFile_run.
  destruct (hasAccessToFile ctx fileId db) as [[user f]|]; [|assumption].
  destruct (canDelete user f); [|assumption]. now apply wf_patched.
Qed.

Lemma wf_restoreFile ctx fileId db : wf db -> wf (after (restoreFile ctx fileId) db).
Proof.
  intros W. unfold after. rewrite restoreFile_run.
  destruct (hasAccessToFile ctx fileId db) as [[user f]|]; [|assumption].
  destruct (canDelete user f); [|assumption]. now apply wf_patched.
Qed.

Lemma wf_deleteAllFiles db : wf db -> wf (after deleteAllFiles db).
Proof.
  intros W. unfold after, mutation. rewrite deleteAllFiles_run.
  destruct (forEach purgeFile _ db) as [e|[[] db']] eqn:E; [assumption|].
  apply forEach_purgeFile_ok in E as (H1 & _ & H3 & H4). cbn [fst].
  apply (wf_files_changed db); try assumption.
  - rewrite H1. apply NoDup_map_filter. apply (wf_file_ids db W).
  - intros g Hg. rewrite H1 in Hg. apply filter_In in Hg as [Hg _]. eauto.
Qed.

Lemma wf_toggleFavorite ctx fileId db :
  wf db -> wf (after (toggleFavorite ctx fileId) db).
Proof.
  intros W. unfold after. rewrite toggleFavorite_run.
  destruct (hasAccessToFile ctx fileId db) as [[user f]|] eqn:H; [|assumption].
  apply hasAccessToFile_Some in H as [H _]. apply db_get_Some in H as [Hin _].
  destruct (favorite_first _ _ _ db) as [fav|] eqn:F; cbn [fst].
  - constructor; unfold favorites_issued, unique_favorites; cbn.
    + intros g Hg. apply filter_In in Hg as [Hg _]. now apply (wf_fav_ids db W).
    + apply (wf_file_ids db W).
    + apply (wf_file_issued db W).
    + intros g Hg. apply filter_In in Hg as [Hg _].
      now apply (wf_fav_issued db W).
    + intros g h Hg Hh. apply filter_In in Hg as [Hg _].
      now apply (wf_fav_org db W).
    + unfold unique_favorites. cbn. apply NoDup_map_filter.
      apply (wf_unique db W).
  - pose proof (favorite_first_None db f _ W Hin F) as H0.
    constructor; unfold favorites_issued, unique_favorites; cbn.
    + intros g Hg. apply in_app_or in Hg as [Hg | [<- | []]]; cbn; [|lia].
      apply (wf_fav_ids db W) in Hg. lia.
    + apply (wf_file_ids db W).
    + intros g Hg. apply (wf_file_issued db W) in Hg. lia.
    + intros g Hg. apply in_app_or in Hg as [Hg | [<- | []]]; cbn.
      * apply (wf_fav_issued db W) in Hg. lia.
      * apply (wf_file_issued db W) in Hin. lia.
    + intros g h Hg Hh Heq. apply in_app_or in Hg as [Hg | [<- | []]].
      * now apply (wf_fav_org db W).
      * cbn in *. f_equal.
        apply (NoDup_map_eq Files._id (files db)); try assumption.
        apply (wf_file_ids db W).
    + unfold unique_favorites. cbn. rewrite map_app. apply NoDup_app.
      * apply (wf_unique db W).
      * repeat constructor. intros [].
      * intros k Hk [<- | []]. apply in_map_iff in Hk as (g & Hkey & Hg).
        assert (In g (favorites_of (Users._id user) (Files._id f) db)) as Hof
            by now apply In_favorites_of.
        rewrite H0 in Hof. destruct Hof.
Qed.

Lemma wf_step c db : wf db -> wf (after (handler c) db).
Proof.
  destruct c; cbn [handler].
  - apply wf_createFile.
  - apply wf_deleteFile.
  - apply wf_restoreFile.
  - apply wf_toggleFavorite.
  - apply wf_deleteAllFiles.
Qed.

Lemma wf_run calls : forall db, wf db -> wf (run calls db).
Proof.
  induction calls as [|c calls IH]; intros db W; cbn; [assumption|].
  apply IH. now apply wf_step.
Qed.

(** ** C9: uniqueness of favorites *)

(** C9: every operation preserves the uniqueness of Favorite records per
    (userId, fileId) pair. It does so as part of the invariant of the store
    ([wf]: besides the uniqueness, a Favorite carries the [orgId] of the file
    it points at, which is what [toggleFavorite] writes, and document ids are
    unique and were issued by the store), which holds of the empty store
    ([wf_empty]) and of every store a sequence of calls makes of it
    ([wf_run]): starting from such a store, no sequence of [createFile],
    [deleteFile], [restoreFile], [toggleFavorite] and purge calls produces a
    state with two Favorite records for the same user and file. *)
Theorem unique_favorites_preserved calls db :
  wf db -> unique_favorites (run calls db).
Proof.
  intros W. apply wf_unique. now apply wf_run.
Qed.

Lemma unique_favorites_preserved_witness :
  unique_favorites
    (run [CreateFile (acme_member 1) report_args;
          ToggleFavorite (acme_member 1) 0;
          ToggleFavorite (acme_admin 2) 0;
          DeleteFile (acme_admin 2) 0;
          ToggleFavorite (acme_member 1) 0;
          ToggleFavorite (acme_member 1) 0;
          DeleteAllFiles;
          RestoreFile (acme_member 1) 0]
         empty_db).
Proof.
  apply (unique_favorites_preserved _ empty_db). exact wf_empty.
Defined.

(** * Further properties of the code *)

(** ** Strings *)

Lemma prefix_split sub s :
  prefix sub s = true <-> exists post, s = (sub ++ post)%string.
Proof.
  revert s. induction sub as [|c sub IH]; intros s.
  - split; [intros _; now exists s|intros _; now destruct s].
  - destruct s as [|d s]; cbn; [split; [discriminate|intros (post & [=])]|].
    destruct (ascii_dec c d) as [<- | Hne].
    + rewrite IH. split; intros (post & H); exists post; [now rewrite H|].
      now injection H.
    + split; [discriminate|]. intros (post & [= -> _]). exfalso. now apply Hne.
Qed.

(** [s.includes(sub)] holds exactly when [sub] occurs in [s] as a contiguous
    substring. *)
Lemma includes_split s sub :
  includes s sub = true <->
  exists pre post, s = (pre ++ sub ++ post)%string.
Proof.
  induction s as [|c s IH]; cbn [includes]; rewrite orb_true_iff, prefix_split.
  - split.
    + intros [(post & H) | H]; [|discriminate]. now exists "", post.
    + intros (pre & post & H). left.
      destruct pre as [|d pre]; [now exists post|discriminate H].
  - rewrite IH. split.
    + intros [(post & H) | (pre & post & H)].
      * now exists "", post.
      * exists (String c pre), post. cbn. now rewrite H.
    + intros (pre & post & H). destruct pre as [|d pre].
      * left. now exists post.
      * right. cbn in H. injection H as _ H. now exists pre, post.
Qed.

Lemma toLowerCase_empty q : toLowerCase q = "" <-> q = "".
Proof. destruct q; cbn; split; congruence. Qed.

Lemma nat_of_ascii_inj c d : nat_of_ascii c = nat_of_ascii d -> c = d.
Proof.
  intros H. rewrite <- (ascii_nat_embedding c), <- (ascii_nat_embedding d).
  now rewrite H.
Qed.

Lemma nat_of_lower_ascii c :
  nat_of_ascii (lower_ascii c) =
  if (65 <=? nat_of_ascii c) && (nat_of_ascii c <=? 90)
  then nat_of_ascii c + 32 else nat_of_ascii c.
Proof.
  unfold lower_ascii.
  destruct ((65 <=? nat_of_ascii c) && (nat_of_ascii c <=? 90)) eqn:E;
    [|reflexivity].
  apply nat_ascii_embedding.
  apply andb_true_iff in E as [_ E]. apply Nat.leb_le in E. lia.
Qed.

Lemma capital_test c :
  (65 <=? nat_of_ascii c) && (nat_of_ascii c <=? 90) = true <-> capital c.
Proof.
  unfold capital. now rewrite andb_true_iff, !Nat.leb_le.
Qed.

(** Lower-casing identifies exactly the characters that are the same up to
    case. *)
Lemma lower_ascii_same_letter c d :
  lower_ascii c = lower_ascii d <-> same_letter c d.
Proof.
  unfold same_letter. split.
  - intros H. apply (f_equal nat_of_ascii) in H.
    rewrite !nat_of_lower_ascii in H.
    destruct ((65 <=? nat_of_ascii c) && (nat_of_ascii c <=? 90)) eqn:C,
             ((65 <=? nat_of_ascii d) && (nat_of_ascii d <=? 90)) eqn:D.
    + left. apply nat_of_ascii_inj. lia.
    + right. left. apply capital_test in C. split; [assumption|lia].
    + right. right. apply capital_test in D. split; [assumption|lia].
    + left. now apply nat_of_ascii_inj.
  - intros [-> | [[C H] | [D H]]]; [reflexivity| |];
      apply nat_of_ascii_inj; rewrite !nat_of_lower_ascii.
    + pose proof C as C'. apply capital_test in C'. rewrite C'.
      destruct ((65 <=? nat_of_ascii d) && (nat_of_ascii d <=? 90)) eqn:D;
        [|lia].
      apply capital_test in D. unfold capital in *. lia.
    + pose proof D as D'. apply capital_test in D'. rewrite D'.
      destruct ((65 <=? nat_of_ascii c) && (nat_of_ascii c <=? 90)) eqn:C;
        [|lia].
      apply capital_test in C. unfold capital in *. lia.
Qed.

Lemma toLowerCase_same_text s : forall t,
  toLowerCase s = toLowerCase t <-> same_text s t.
Proof.
  induction s as [|c s IH]; intros [|d t]; cbn.
  - split; [constructor|reflexivity].
  - split; [discriminate|inversion 1].
  - split; [discriminate|inversion 1].
  - split.
    + intros [= Hc Hs]. constructor; [now apply lower_ascii_same_letter|].
      now apply IH.
    + inversion 1; subst. f_equal; [now apply lower_ascii_same_letter|].
      now apply IH.
Qed.

Lemma toLowerCase_app s t :
  toLowerCase (s ++ t) = (toLowerCase s ++ toLowerCase t)%string.
Proof. induction s as [|c s IH]; cbn; [reflexivity|now rewrite IH]. Qed.

Lemma toLowerCase_split pre' : forall name rest',
  toLowerCase name = (pre' ++ rest')%string ->
  exists pre rest, name = (pre ++ rest)%string /\
                   toLowerCase pre = pre' /\ toLowerCase rest = rest'.
Proof.
  induction pre' as [|c pre' IH]; intros name rest' H.
  - exists "", name. now repeat split.
  - destruct name as [|d name]; [discriminate H|].
    cbn in H. injection H as Hc H.
    destruct (IH name rest' H) as (pre & rest & -> & Hp & Hr).
    exists (String d pre), rest. cbn. repeat split; [|assumption].
    now rewrite Hc, Hp.
Qed.

(** The test of the query filter holds exactly when a stretch of the name is
    the query up to case. *)
Lemma includes_ignoring_case name q :
  includes (toLowerCase name) (toLowerCase q) = true <->
  contains_ignoring_case name q.
Proof.
  rewrite includes_split. unfold contains_ignoring_case. split.
  - intros (pre' & post' & H).
    apply toLowerCase_split in H as (pre & rest & -> & _ & H).
    apply toLowerCase_split in H as (mid & post & -> & H & _).
    exists pre, mid, post. split; [reflexivity|].
    now apply toLowerCase_same_text.
  - intros (pre & mid & post & -> & H). apply toLowerCase_same_text in H.
    exists (toLowerCase pre), (toLowerCase post).
    now rewrite !toLowerCase_app, H.
Qed.


(** ** Listings *)

Lemma In_getFiles ctx args db r :
  In r (getFiles ctx args db) <->
  authorizedOrg ctx (gf_orgId args) /\
  In (file r) (files db) /\
  getFiles_keeps ctx args db (file r) = true /\
  url r = storage_getUrl (Files.fileId (file r)) db.
Proof.
  destruct (hasAccessToOrg ctx (gf_orgId args)) as [user|] eqn:E.
  - rewrite (getFiles_files _ _ db _ E). unfold getFiles_as_filter.
    rewrite in_map_iff. split.
    + intros (f & <- & Hf). apply filter_In in Hf as [Hf Hk]. cbn.
      apply hasAccessToOrg_Some in E. split; [now exists user|]. now repeat split.
    + intros (_ & Hf & Hk & Hu). exists (file r). split.
      * destruct r as [f u]. cbn in *. now rewrite Hu.
      * now apply filter_In.
  - rewrite (getFiles_stranger _ _ db E). apply hasAccessToOrg_None in E.
    split; [intros []|]. intros (Ha & _). contradiction.
Qed.

Lemma getFiles_keeps_true ctx args db f :
  getFiles_keeps ctx args db f = true <->
  Files.orgId f = gf_orgId args /\
  matchesQuery (gf_query args) f = true /\
  matchesFavorites (gf_favorites args) ctx (gf_orgId args) db f = true /\
  matchesDeleted (gf_deletedOnly args) f = true /\
  matchesType (gf_type args) f = true.
Proof.
  unfold getFiles_keeps. rewrite !andb_true_iff, String.eqb_eq. tauto.
Qed.


(** ** C5: the filters of listFiles *)



(** X1: [getFiles] never returns anything to a caller outside the
    organization, and what it returns to a member are records of the files
    table that belong to the requested organization, each with the URL the
    storage resolves for its blob, which is null exactly when the blob is
    missing. *)
Theorem getFiles_only_own_organization ctx args db r :
  In r (getFiles ctx args db) ->
  authorizedOrg ctx (gf_orgId args) /\
  In (file r) (files db) /\
  Files.orgId (file r) = gf_orgId args /\
  url r = storage_getUrl (Files.fileId (file r)) db /\
  (url r = None <-> ~ In (Files.fileId (file r)) (storage db)).
Proof.
  intros H. apply In_getFiles in H as (Ha & Hf & Hk & Hu).
  apply getFiles_keeps_true in Hk as (Ho & _).
  repeat (split; [assumption|]). rewrite Hu. unfold storage_getUrl.
  destruct (existsb _ _) eqn:E.
  - apply existsb_eqb_In in E. split; [discriminate|contradiction].
  - split; [|reflexivity]. intros _ Hin. apply existsb_eqb_In in Hin. congruence.
Qed.

Lemma getFiles_only_own_organization_witness :
  authorizedOrg (acme_member 2) "acme" /\
  Files.orgId (acme_file 10 "Report.pdf" 100 1 None) = "acme".
Proof.
  destruct (getFiles_only_own_organization
              (acme_member 2) (view "acme" None) db_one
              {| file := acme_file 10 "Report.pdf" 100 1 None;
                 url := Some (UrlOf 100) |})
    as (H1 & _ & H2 & _).
  - left. reflexivity.
  - split; [exact H1|exact H2].
Defined.

(** X2: the optional filters of [getFiles] only narrow the listing: whatever
    a call returns is also returned by the call that has the same [orgId]
    and [deletedOnly] and no query, favorites or type filter. *)
Theorem getFiles_filters_only_narrow ctx args db r :
  In r (getFiles ctx args db) ->
  In r (getFiles ctx (view (gf_orgId args) (gf_deletedOnly args)) db).
Proof.
  intros H. apply In_getFiles in H as (Ha & Hf & Hk & Hu).
  apply In_getFiles. cbn [view gf_orgId].
  repeat (split; [assumption|]). split; [|assumption].
  apply getFiles_keeps_true in Hk as (Ho & _ & _ & Hd & _).
  apply getFiles_keeps_true. cbn. now repeat split.
Qed.

Lemma getFiles_filters_only_narrow_witness :
  In {| file := acme_file 10 "Report.pdf" 100 1 None; url := Some (UrlOf 100) |}
     (getFiles (acme_member 2) (view "acme" None) db_favorites).
Proof.
  apply (getFiles_filters_only_narrow
           (acme_member 2)
           {| gf_orgId := "acme"; gf_query := Some "port";
              gf_favorites := Some true; gf_deletedOnly := None;
              gf_type := Some pdf |} db_favorites).
  left. reflexivity.
Defined.

(** X3: the query of [getFiles] is case-insensitive in the query as well:
    for file names and queries of the ASCII range, two queries that are the
    same up to the case of their letters give the same listing. *)
Theorem getFiles_query_case_insensitive ctx args db q1 q2 :
  ascii_only q1 -> ascii_only q2 ->
  (forall f, In f (files db) -> ascii_only (Files.name f)) ->
  same_text q1 q2 ->
  getFiles ctx (with_query (Some q1) args) db =
  getFiles ctx (with_query (Some q2) args) db.
Proof.
  intros _ _ _ H. apply toLowerCase_same_text in H.
  destruct (hasAccessToOrg ctx (gf_orgId args)) as [user|] eqn:E.
  - rewrite (getFiles_files _ (with_query (Some q1) args) db user E).
    rewrite (getFiles_files _ (with_query (Some q2) args) db user E).
    unfold getFiles_as_filter. f_equal. apply filter_ext. intros f.
    unfold getFiles_keeps, with_query, matchesQuery. cbn. now rewrite H.
  - rewrite !getFiles_stranger; [reflexivity|exact E|exact E].
Qed.

Lemma getFiles_query_case_insensitive_witness :
  getFiles (acme_member 2) (with_query (Some "rEPort") (view "acme" None)) db_one
  = getFiles (acme_member 2) (with_query (Some "Report") (view "acme" None))
             db_one.
Proof.
  apply (getFiles_query_case_insensitive
           (acme_member 2) (view "acme" None) db_one "rEPort" "Report").
  - reflexivity.
  - reflexivity.
  - intros f [<- | []]. reflexivity.
  - repeat (constructor;
            [first [ left; reflexivity
                   | right; left; split; [split; cbn; lia|reflexivity]
                   | right; right; split; [split; cbn; lia|reflexivity] ]|]).
    constructor.
Defined.

(** X4: with a query of the ASCII range, an entry whose name is of the ASCII
    range is returned by [getFiles] exactly when the same call without the
    query returns it and a stretch of its name is the query up to the case of
    the letters (an empty query keeps every entry). *)
Theorem getFiles_query_is_substring_match ctx args db q r :
  ascii_only q ->
  ascii_only (Files.name (file r)) ->
  (In r (getFiles ctx (with_query (Some q) args) db) <->
   In r (getFiles ctx (with_query None args) db) /\
   contains_ignoring_case (Files.name (file r)) q).
Proof.
  intros _ _.
  rewrite !In_getFiles, !getFiles_keeps_true. cbn [with_query gf_orgId
    gf_query gf_favorites gf_deletedOnly gf_type matchesQuery].
  rewrite includes_ignoring_case. tauto.
Qed.

(** X5: [getAllFavorites] returns exactly the Favorite records of the table
    that belong to the caller and to the requested organization, and only to
    a caller who is a member of it; it never returns another user's
    Favorite. *)
Theorem getAllFavorites_only_own ctx orgId db fav :
  In fav (getAllFavorites ctx orgId db) <->
  In fav (favorites db) /\ Favorites.orgId fav = orgId /\
  exists user, getUser ctx = Some user /\ member user orgId /\
               Favorites.userId fav = Users._id user.
Proof.
  destruct (hasAccessToOrg ctx orgId) as [user|] eqn:E.
  - rewrite (getAllFavorites_member _ _ db _ E).
    unfold favorites_by_userId_orgId.
    rewrite In_by_fileId, filter_In, andb_true_iff, Nat.eqb_eq, String.eqb_eq.
    apply hasAccessToOrg_Some in E as [Hu Hm]. split.
    + intros (Hin & Hid & Ho). repeat split; try assumption. now exists user.
    + intros (Hin & Ho & u & Hu' & _ & Hid).
      assert (u = user) as -> by congruence. now repeat split.
  - unfold getAllFavorites. rewrite E. apply hasAccessToOrg_None in E.
    split; [intros []|]. intros (_ & _ & u & Hu & Hm & _).
    apply E. now exists u.
Qed.

Lemma getFiles_query_is_substring_match_witness :
  In {| file := acme_file 10 "Report.pdf" 100 1 None; url := Some (UrlOf 100) |}
     (getFiles (acme_member 2) (with_query (Some "PORT") (view "acme" None))
               db_one).
Proof.
  apply (getFiles_query_is_substring_match
           (acme_member 2) (view "acme" None) db_one "PORT"
           {| file := acme_file 10 "Report.pdf" 100 1 None;
              url := Some (UrlOf 100) |}).
  - reflexivity.
  - reflexivity.
  - split; [left; reflexivity|].
    exists "Re", "port", ".pdf". split; [reflexivity|].
    repeat (constructor;
            [right; right; split; [split; cbn; lia|reflexivity]|]).
    constructor.
Defined.

Lemma getAllFavorites_only_own_witness :
  In {| Favorites._id := 12; Favorites.fileId := 10;
        Favorites.userId := 2; Favorites.orgId := "acme" |}
     (getAllFavorites (acme_member 2) "acme" db_favorites) /\
  ~ In {| Favorites._id := 14; Favorites.fileId := 10;
          Favorites.userId := 1; Favorites.orgId := "acme" |}
       (getAllFavorites (acme_member 2) "acme" db_favorites).
Proof.
  split.
  - apply (getAllFavorites_only_own (acme_member 2) "acme" db_favorites).
    split; [left; reflexivity|]. split; [reflexivity|].
    eexists. split; [reflexivity|]. split; [|reflexivity].
    eexists. split; [left; reflexivity|reflexivity].
  - intros H.
    apply (getAllFavorites_only_own (acme_member 2) "acme" db_favorites) in H
      as (_ & _ & user & Hu & _ & Hid).
    injection Hu as <-. discriminate Hid.
Defined.

(** ** createFile *)

Lemma find_app_r {A} (p : A -> bool) l l' :
  find p (l ++ l') =
  match find p l with
  | Some x => Some x
  | None => find p l'
  end.
Proof.
  induction l as [|a l IH]; cbn; [reflexivity|]. now destruct (p a).
Qed.

(** X6: in a well-formed store, the record a member's [createFile] inserts
    can be looked up under the id the store issued for it, carries the
    arguments, the caller as owner and no [shouldDelete], and the lookup of
    every other id is as before. *)
Theorem createFile_then_get ctx args db user :
  wf db ->
  getUser ctx = Some user ->
  member user (cf_orgId args) ->
  db_get (nextId db) db = None /\
  db_get (nextId db) (after (createFile ctx args) db) =
  Some {| Files._id := nextId db;
          Files.name := cf_name args;
          Files.orgId := cf_orgId args;
          Files.fileId := cf_fileId args;
          Files.type := cf_type args;
          Files.userId := Users._id user;
          Files.shouldDelete := None |} /\
  (forall id, id <> nextId db ->
              db_get id (after (createFile ctx args) db) = db_get id db).
Proof.
  intros W Hu Hm.
  assert (hasAccessToOrg ctx (cf_orgId args) = Some user) as E
      by now apply hasAccessToOrg_Some.
  assert (db_get (nextId db) db = None) as Hn.
  { unfold db_get. apply find_none_of. intros f Hf.
    apply (wf_file_issued db W) in Hf. apply Nat.eqb_neq. lia. }
  split; [exact Hn|].
  unfold after. rewrite (createFile_member _ _ db _ E). cbn [fst].
  unfold db_get in *. cbn [files]. split.
  - rewrite find_app_r, Hn. cbn. now rewrite Nat.eqb_refl.
  - intros id Hid. rewrite find_app_r. cbn.
    apply Nat.eqb_neq in Hid. rewrite Nat.eqb_sym, Hid.
    now destruct (find (fun f => Files._id f =? id) (files db)).
Qed.

Lemma createFile_then_get_witness :
  db_get 11 db_one = None /\
  (exists f, db_get 11 (after (createFile (acme_member 2) report_args) db_one)
             = Some f /\ Files.userId f = 2) /\
  db_get 10 (after (createFile (acme_member 2) report_args) db_one)
  = db_get 10 db_one.
Proof.
  destruct (createFile_then_get (acme_member 2) report_args db_one
              {| Users._id := 2;
                 Users.orgIds := [ {| Users.orgId := "acme";
                                      Users.role := "member" |} ] |})
    as (H1 & H2 & H3).
  - exact wf_db_one.
  - reflexivity.
  - eexists. split; [left; reflexivity|reflexivity].
  - split; [exact H1|]. split.
    + eexists. split; [exact H2|reflexivity].
    + apply H3. discriminate.
Defined.

(** X7: [createFile] does not look for duplicates: the same call made twice
    by a member appends two records with the same name, organization and
    storage id under two consecutive ids. *)
Theorem createFile_twice_two_records ctx args db :
  authorizedOrg ctx (cf_orgId args) ->
  exists f1 f2,
    files (run [CreateFile ctx args; CreateFile ctx args] db)
    = files db ++ [f1; f2] /\
    Files._id f1 = nextId db /\ Files._id f2 = S (nextId db) /\
    Files.name f1 = cf_name args /\ Files.name f2 = cf_name args /\
    Files.orgId f1 = Files.orgId f2 /\ Files.fileId f1 = Files.fileId f2 /\
    Files.fileId f1 = cf_fileId args.
Proof.
  intros (user & Hu & Hm).
  assert (hasAccessToOrg ctx (cf_orgId args) = Some user) as E
      by now apply hasAccessToOrg_Some.
  cbn [run fold_left handler]. unfold after.
  rewrite (createFile_member _ _ db _ E). cbn [fst].
  rewrite (createFile_member _ _ _ _ E). cbn [fst files nextId].
  eexists. eexists. rewrite <- app_assoc. cbn [app].
  split; [reflexivity|]. now repeat split.
Qed.

Lemma createFile_twice_two_records_witness :
  exists f1 f2,
    files (run [CreateFile (acme_member 1) report_args;
                CreateFile (acme_member 1) report_args] empty_db)
    = [f1; f2] /\
    Files._id f1 = 0 /\ Files._id f2 = 1 /\
    Files.name f1 = "Report.pdf" /\ Files.name f2 = "Report.pdf".
Proof.
  destruct (createFile_twice_two_records (acme_member 1) report_args empty_db)
    as (f1 & f2 & H & H1 & H2 & H3 & H4 & _).
  - eexists. split; [reflexivity|].
    eexists. split; [left; reflexivity|reflexivity].
  - exists f1, f2. now repeat split.
Defined.

(** ** Soft delete and restore *)

Lemma find_patched_other id j b fs :
  j <> id ->
  find (fun f => Files._id f =? j) (patched id b fs) =
  find (fun f => Files._id f =? j) fs.
Proof.
  intros Hj. unfold patched.
  induction fs as [|x fs IH]; cbn; [reflexivity|].
  destruct (Files._id x =? id) eqn:E; cbn.
  - apply Nat.eqb_eq in E. rewrite E.
    assert ((id =? j) = false) as -> by (apply Nat.eqb_neq; congruence).
    exact IH.
  - now rewrite IH.
Qed.

Lemma patched_patched id b c fs : patched id b (patched id c fs) = patched id b fs.
Proof.
  unfold patched. rewrite map_map. apply map_ext. intros f.
  destruct (Files._id f =? id) eqn:E; cbn; now rewrite E.
Qed.

(** What a flag write leaves alone. *)
Lemma patched_frame id b db :
  let db' := with_files (patched id b (files db)) db in
  favorites db' = favorites db /\ storage db' = storage db /\
  nextId db' = nextId db /\
  map Files._id (files db') = map Files._id (files db) /\
  (forall j, j <> id -> db_get j db' = db_get j db) /\
  (forall f', db_get id db' = Some f' ->
              exists f, db_get id db = Some f /\ same_identity f f' /\
                        Files.shouldDelete f' = Some b).
Proof.
  cbn zeta.
  split; [reflexivity|]. split; [reflexivity|]. split; [reflexivity|].
  split; [|split].
  - apply patched_ids.
  - intros j Hj. unfold db_get. cbn [with_files files].
    now apply find_patched_other.
  - intros f' H. rewrite db_get_patched in H.
    destruct (db_get id db) as [f|]; [|discriminate]. injection H as <-.
    exists f. now repeat split.
Qed.

Lemma mayDelete_access ctx fileId db f :
  db_get fileId db = Some f -> mayDelete ctx f ->
  exists user, hasAccessToFile ctx fileId db = Some (user, f) /\
               canDelete user f = true.
Proof.
  intros Hf (user & Hu & Hm & Hc). exists user. split; [|assumption].
  apply hasAccessToFile_member; [assumption|]. now apply hasAccessToOrg_Some.
Qed.

(** X8: [deleteFile] and [restoreFile] write nothing but the [shouldDelete]
    field of the document they are called on: the favorites, the stored
    blobs, the id counter, the ids of the table and the lookup of every other
    id are as before, and the document itself keeps its id, name,
    organization, storage id, type and owner. *)
Theorem deleteFile_restoreFile_write_only_the_flag ctx fileId db :
  let touches (db' : Db) :=
      favorites db' = favorites db /\ storage db' = storage db /\
      nextId db' = nextId db /\
      map Files._id (files db') = map Files._id (files db) /\
      (forall j, j <> fileId -> db_get j db' = db_get j db) /\
      (forall f', db_get fileId db' = Some f' ->
                  exists f, db_get fileId db = Some f /\ same_identity f f') in
  touches (after (deleteFile ctx fileId) db) /\
  touches (after (restoreFile ctx fileId) db).
Proof.
  assert (forall b,
             let db' := with_files (patched fileId b (files db)) db in
             favorites db' = favorites db /\ storage db' = storage db /\
             nextId db' = nextId db /\
             map Files._id (files db') = map Files._id (files db) /\
             (forall j, j <> fileId -> db_get j db' = db_get j db) /\
             (forall f', db_get fileId db' = Some f' ->
                         exists f, db_get fileId db = Some f /\
                                   same_identity f f')) as Hp.
  { intros b. destruct (patched_frame fileId b db) as (H1 & H2 & H3 & H4 & H5 & H6).
    repeat (split; [assumption|]). intros f' Hf'.
    destruct (H6 f' Hf') as (f & Hf & Hs & _). now exists f. }
  assert (favorites db = favorites db /\ storage db = storage db /\
          nextId db = nextId db /\
          map Files._id (files db) = map Files._id (files db) /\
          (forall j, j <> fileId -> db_get j db = db_get j db) /\
          (forall f', db_get fileId db = Some f' ->
                      exists f, db_get fileId db = Some f /\
                                same_identity f f')) as Hid.
  { repeat (split; [reflexivity|]). intros f' Hf'. exists f'.
    split; [assumption|]. now repeat split. }
  cbn zeta. unfold after. rewrite deleteFile_run, restoreFile_run.
  destruct (hasAccessToFile ctx fileId db) as [[user f]|]; [|now split].
  destruct (canDelete user f); [|now split].
  split; [apply (Hp true)|apply (Hp false)].
Qed.

(** X9: once [deleteFile] has succeeded on a file, every member of its
    organization finds it in the [deletedOnly] listing and no longer in the
    default listing, and the index query of the sweep selects it. *)
Theorem deleteFile_moves_to_deleted_view ctx viewer fileId db f :
  db_get fileId db = Some f ->
  mayDelete ctx f ->
  authorizedOrg viewer (Files.orgId f) ->
  let db' := after (deleteFile ctx fileId) db in
  In {| file := set_shouldDelete true f;
        url := storage_getUrl (Files.fileId f) db |}
     (getFiles viewer (view (Files.orgId f) (Some true)) db') /\
  (forall r, In r (getFiles viewer (view (Files.orgId f) None) db') ->
             Files._id (file r) <> fileId) /\
  In (set_shouldDelete true f) (files_by_shouldDelete_true db').
Proof.
  intros Hf Hm Hv.
  destruct (mayDelete_access ctx fileId db f Hf Hm) as (user & Ha & Hc).
  cbn zeta. unfold after. rewrite deleteFile_run, Ha, Hc. cbn [fst].
  assert (In (set_shouldDelete true f) (patched fileId true (files db))) as Hin.
  { apply db_get_Some in Hf as [Hin Hid]. unfold patched.
    apply in_map_iff. exists f. split; [|assumption].
    apply Nat.eqb_eq in Hid. now rewrite Hid. }
  split; [|split].
  - apply In_getFiles. cbn [view gf_orgId file url]. split; [assumption|].
    split; [exact Hin|]. split; [|reflexivity].
    apply getFiles_keeps_true. cbn. now repeat split.
  - intros r Hr. apply In_getFiles in Hr as (_ & Hr & Hk & _).
    apply getFiles_keeps_true in Hk as (_ & _ & _ & Hd & _).
    cbn in Hr. unfold patched in Hr. apply in_map_iff in Hr as (g & Hg & _).
    intros Hid. destruct (Files._id g =? fileId) eqn:E.
    + rewrite <- Hg in Hd. discriminate Hd.
    + apply Nat.eqb_neq in E. apply E. now rewrite <- Hid, <- Hg.
  - unfold files_by_shouldDelete_true. apply filter_In. split; [exact Hin|].
    reflexivity.
Qed.

Lemma deleteFile_moves_to_deleted_view_witness :
  In (acme_file 10 "Report.pdf" 100 1 (Some true))
     (files_by_shouldDelete_true (after (deleteFile (acme_member 1) 10) db_one)).
Proof.
  destruct (deleteFile_moves_to_deleted_view
              (acme_member 1) (acme_admin 2) 10 db_one
              (acme_file 10 "Report.pdf" 100 1 None)) as (_ & _ & H).
  - reflexivity.
  - eexists. split; [reflexivity|]. split; [|reflexivity].
    eexists. split; [left; reflexivity|reflexivity].
  - eexists. split; [reflexivity|].
    eexists. split; [left; reflexivity|reflexivity].
  - exact H.
Defined.

Lemma deleteFile_restoreFile_write_only_the_flag_witness :
  favorites (after (deleteFile (acme_member 2) 11) db_favorites)
  = favorites db_favorites /\
  storage (after (restoreFile (acme_member 2) 11) db_favorites)
  = storage db_favorites.
Proof.
  destruct (deleteFile_restoreFile_write_only_the_flag
              (acme_member 2) 11 db_favorites) as [(H1 & _) (_ & H2 & _)].
  split; [exact H1|exact H2].
Defined.

(** X10: once [restoreFile] has succeeded on a file, every member of its
    organization finds it in the default listing and not in the
    [deletedOnly] listing, and the index query of the sweep selects no
    document with its id. *)
Theorem restoreFile_moves_to_live_view ctx viewer fileId db f :
  db_get fileId db = Some f ->
  mayDelete ctx f ->
  authorizedOrg viewer (Files.orgId f) ->
  let db' := after (restoreFile ctx fileId) db in
  In {| file := set_shouldDelete false f;
        url := storage_getUrl (Files.fileId f) db |}
     (getFiles viewer (view (Files.orgId f) None) db') /\
  (forall r, In r (getFiles viewer (view (Files.orgId f) (Some true)) db') ->
             Files._id (file r) <> fileId) /\
  (forall g, In g (files_by_shouldDelete_true db') -> Files._id g <> fileId).
Proof.
  intros Hf Hm Hv.
  destruct (mayDelete_access ctx fileId db f Hf Hm) as (user & Ha & Hc).
  cbn zeta. unfold after. rewrite restoreFile_run, Ha, Hc. cbn [fst].
  assert (forall g, In g (patched fileId false (files db)) ->
                    Files._id g = fileId -> Files.shouldDelete g = Some false)
    as Hflag.
  { intros g Hg Hid. unfold patched in Hg.
    apply in_map_iff in Hg as (g0 & Hg0 & _).
    destruct (Files._id g0 =? fileId) eqn:E; [now rewrite <- Hg0|].
    apply Nat.eqb_neq in E. exfalso. apply E. now rewrite <- Hid, <- Hg0. }
  split; [|split].
  - apply In_getFiles. cbn [view gf_orgId file url]. split; [assumption|].
    split; [|split; [|reflexivity]].
    + apply db_get_Some in Hf as [Hin Hid]. cbn. unfold patched.
      apply in_map_iff. exists f. split; [|assumption].
      apply Nat.eqb_eq in Hid. now rewrite Hid.
    + apply getFiles_keeps_true. cbn. now repeat split.
  - intros r Hr Hid. apply In_getFiles in Hr as (_ & Hr & Hk & _).
    apply getFiles_keeps_true in Hk as (_ & _ & _ & Hd & _).
    unfold matchesDeleted in Hd. rewrite (Hflag _ Hr Hid) in Hd. discriminate Hd.
  - intros g Hg Hid. unfold files_by_shouldDelete_true in Hg.
    apply filter_In in Hg as [Hg Hk]. unfold isFlagged in Hk.
    rewrite (Hflag _ Hg Hid) in Hk. discriminate Hk.
Qed.

Lemma restoreFile_moves_to_live_view_witness :
  In {| file := acme_file 11 "Old notes.csv" 101 2 (Some false);
        url := Some (UrlOf 101) |}
     (getFiles (acme_member 1) (view "acme" None)
               (after (restoreFile (acme_member 2) 11) db_favorites)).
Proof.
  destruct (restoreFile_moves_to_live_view
              (acme_member 2) (acme_member 1) 11 db_favorites
              (acme_file 11 "Old notes.csv" 101 2 (Some true))) as (H & _).
  - reflexivity.
  - eexists. split; [reflexivity|]. split; [|reflexivity].
    eexists. split; [left; reflexivity|reflexivity].
  - eexists. split; [reflexivity|].
    eexists. split; [left; reflexivity|reflexivity].
  - exact H.
Defined.

(** X11: the last write wins, whoever made the earlier one: when two callers
    may both delete the file, a [deleteFile] by the one followed by a
    [restoreFile] by the other leaves the store as the [restoreFile] alone
    does, and a [restoreFile] followed by a [deleteFile] leaves it as the
    [deleteFile] alone does. *)
Theorem deleteFile_restoreFile_last_write_wins ctx1 ctx2 fileId db f :
  db_get fileId db = Some f ->
  mayDelete ctx1 f ->
  mayDelete ctx2 f ->
  run [DeleteFile ctx1 fileId; RestoreFile ctx2 fileId] db =
  with_files (patched fileId false (files db)) db /\
  run [RestoreFile ctx2 fileId] db =
  with_files (patched fileId false (files db)) db /\
  run [RestoreFile ctx1 fileId; DeleteFile ctx2 fileId] db =
  with_files (patched fileId true (files db)) db /\
  run [DeleteFile ctx2 fileId] db =
  with_files (patched fileId true (files db)) db.
Proof.
  intros Hf H1 H2.
  destruct (mayDelete_access ctx1 fileId db f Hf H1) as (u1 & Ha1 & Hc1).
  destruct (mayDelete_access ctx2 fileId db f Hf H2) as (u2 & Ha2 & Hc2).
  cbn [run fold_left handler]. unfold after.
  rewrite !deleteFile_run, !restoreFile_run, Ha1, Ha2, Hc1, Hc2. cbn [fst].
  rewrite (hasAccessToFile_patched _ _ true _ _ _ Ha2).
  rewrite (hasAccessToFile_patched _ _ false _ _ _ Ha2).
  rewrite !canDelete_set_shouldDelete, Hc2. cbn [fst].
  unfold with_files. cbn [files favorites storage nextId].
  rewrite !patched_patched. now repeat split.
Qed.

Lemma deleteFile_restoreFile_last_write_wins_witness :
  run [DeleteFile (acme_member 1) 10; RestoreFile (acme_admin 2) 10] db_one =
  run [RestoreFile (acme_admin 2) 10] db_one.
Proof.
  destruct (deleteFile_restoreFile_last_write_wins
              (acme_member 1) (acme_admin 2) 10 db_one
              (acme_file 10 "Report.pdf" 100 1 None)) as (H1 & H2 & _).
  - reflexivity.
  - eexists. split; [reflexivity|]. split; [|reflexivity].
    eexists. split; [left; reflexivity|reflexivity].
  - eexists. split; [reflexivity|]. split; [|reflexivity].
    eexists. split; [left; reflexivity|reflexivity].
  - now rewrite H1, H2.
Defined.

(** ** Favorites *)

(** X12: [toggleFavorite] succeeds exactly when the file exists and the
    caller is a member of its organization; who owns the file and which role
    the caller has play no part. *)
Theorem toggleFavorite_succeeds_iff_member ctx fileId db :
  outcome (toggleFavorite ctx fileId) db = inr tt <->
  exists f, db_get fileId db = Some f /\ authorizedOrg ctx (Files.orgId f).
Proof.
  unfold outcome. rewrite toggleFavorite_run.
  destruct (hasAccessToFile ctx fileId db) as [[user f]|] eqn:E.
  - apply hasAccessToFile_Some in E as [Hf Ho].
    apply hasAccessToOrg_Some in Ho.
    split; [intros _; exists f; split; [assumption|now exists user]|].
    intros _. now destruct (favorite_first _ _ _ db).
  - split; [discriminate|]. intros (f & Hf & user & Hu & Hm).
    assert (hasAccessToOrg ctx (Files.orgId f) = Some user) as Ho
        by now apply hasAccessToOrg_Some.
    rewrite (hasAccessToFile_member _ _ _ _ _ Hf Ho) in E. discriminate E.
Qed.

Lemma toggleFavorite_succeeds_iff_member_witness :
  outcome (toggleFavorite (acme_member 2) 10) db_one = inr tt /\
  denied (deleteFile (acme_member 2) 10) db_one
         "You do not have access to delete this file.".
Proof.
  split; [|reflexivity].
  apply (toggleFavorite_succeeds_iff_member (acme_member 2) 10 db_one).
  eexists. split; [reflexivity|].
  eexists. split; [reflexivity|].
  eexists. split; [left; reflexivity|reflexivity].
Defined.

Lemma existsb_filter {A} (p q : A -> bool) l :
  existsb q (filter p l) = existsb (fun x => p x && q x) l.
Proof.
  induction l as [|x l IH]; cbn; [reflexivity|].
  destruct (p x); cbn; now rewrite IH.
Qed.

Lemma existsb_find {A} (p : A -> bool) l :
  existsb p l = match find p l with Some _ => true | None => false end.
Proof.
  induction l as [|x l IH]; cbn; [reflexivity|]. now destruct (p x).
Qed.

(** Whether one of the caller's Favorites in the organization points at the
    file is what the lookup of [toggleFavorite] finds. *)
Lemma listed_is_lookup ctx user orgId fileId db :
  hasAccessToOrg ctx orgId = Some user ->
  existsb (fun fav => Favorites.fileId fav =? fileId)
          (getAllFavorites ctx orgId db) =
  match favorite_first (Users._id user) orgId fileId db with
  | Some _ => true
  | None => false
  end.
Proof.
  intros E. rewrite (getAllFavorites_member _ _ db _ E).
  unfold favorites_by_userId_orgId, favorite_first.
  now rewrite existsb_by_fileId, existsb_filter, existsb_find.
Qed.

(** The lookup after a toggle finds a Favorite exactly when the lookup
    before found none. *)
Lemma toggleFavorite_flips_lookup ctx fileId db user f :
  unique_favorites db ->
  hasAccessToFile ctx fileId db = Some (user, f) ->
  favorite_first (Users._id user) (Files.orgId f) (Files._id f)
                 (after (toggleFavorite ctx fileId) db) =
  match favorite_first (Users._id user) (Files.orgId f) (Files._id f) db with
  | Some _ => None
  | None => Some {| Favorites._id := nextId db;
                    Favorites.fileId := Files._id f;
                    Favorites.userId := Users._id user;
                    Favorites.orgId := Files.orgId f |}
  end.
Proof.
  intros U H. unfold after. rewrite toggleFavorite_run, H.
  destruct (favorite_first _ _ _ db) as [fav|] eqn:F; cbn [fst].
  - destruct (favorite_first_Some db _ _ _ fav U F) as [_ H1].
    now apply favorite_first_of_none.
  - unfold favorite_first in *. cbn [favorites].
    rewrite (find_app_none _ _ _ F). cbn.
    now rewrite !Nat.eqb_refl, String.eqb_refl.
Qed.

(** X13: [toggleFavorite] flips whether the file shows among the caller's
    favorites: in a store with at most one Favorite per (userId, fileId), an
    entry for the file is in the caller's favorites-only listing after the
    call exactly when it was in the corresponding plain listing and not in
    the favorites-only listing before. *)
Theorem toggleFavorite_flips_favorites_listing ctx fileId db f d r :
  unique_favorites db ->
  db_get fileId db = Some f ->
  authorizedOrg ctx (Files.orgId f) ->
  Files._id (file r) = fileId ->
  (In r (getFiles ctx (favorites_view (Files.orgId f) d)
                  (after (toggleFavorite ctx fileId) db)) <->
   In r (getFiles ctx (view (Files.orgId f) d) db) /\
   ~ In r (getFiles ctx (favorites_view (Files.orgId f) d) db)).
Proof.
  intros U Hf (user & Hu & Hm) Hr.
  destruct (db_get_Some _ _ _ Hf) as [_ Hid].
  revert Hr. subst fileId. intros Hr.
  assert (hasAccessToOrg ctx (Files.orgId f) = Some user) as E
      by now apply hasAccessToOrg_Some.
  pose proof (hasAccessToFile_member _ _ _ _ _ Hf E) as Ha.
  pose proof (toggleFavorite_flips_lookup ctx _ db user f U Ha) as Hflip.
  assert (files (after (toggleFavorite ctx (Files._id f)) db) = files db /\
          storage (after (toggleFavorite ctx (Files._id f)) db) = storage db)
    as [Hfiles Hst].
  { unfold after. rewrite toggleFavorite_run, Ha.
    now destruct (favorite_first _ _ _ db). }
  rewrite !In_getFiles, !getFiles_keeps_true.
  cbn [favorites_view view gf_orgId gf_query gf_favorites gf_deletedOnly
       gf_type matchesQuery matchesType matchesFavorites].
  rewrite !(listed_is_lookup ctx user _ _ _ E).
  unfold storage_getUrl. rewrite Hfiles, Hst, Hr, Hflip.
  destruct (favorite_first _ _ _ db); intuition congruence.
Qed.

Lemma toggleFavorite_flips_favorites_listing_witness :
  In {| file := acme_file 10 "Report.pdf" 100 1 None; url := Some (UrlOf 100) |}
     (getFiles (acme_member 2) (favorites_view "acme" None)
               (after (toggleFavorite (acme_member 2) 10) db_one)).
Proof.
  apply (toggleFavorite_flips_favorites_listing
           (acme_member 2) 10 db_one
           (acme_file 10 "Report.pdf" 100 1 None) None).
  - constructor.
  - reflexivity.
  - eexists. split; [reflexivity|].
    eexists. split; [left; reflexivity|reflexivity].
  - reflexivity.
  - split; [left; reflexivity|]. intros [].
Defined.

(** X14: [toggleFavorite] touches the Favorite records of no other pair: in
    a store whose Favorite ids are unique, the records of every (userId,
    fileId) pair other than the caller's on the file are exactly as
    before. *)
Theorem toggleFavorite_leaves_other_pairs ctx fileId db u fid :
  favorite_ids_unique db ->
  (forall user, getUser ctx = Some user -> u <> Users._id user \/ fid <> fileId) ->
  favorites_of u fid (after (toggleFavorite ctx fileId) db) =
  favorites_of u fid db.
Proof.
  intros Hnd Hother. unfold after. rewrite toggleFavorite_run.
  destruct (hasAccessToFile ctx fileId db) as [[user f]|] eqn:H; [|reflexivity].
  apply hasAccessToFile_Some in H as [Hf Ho].
  apply hasAccessToOrg_Some in Ho as [Hu _].
  apply db_get_Some in Hf as [_ Hid]. specialize (Hother user Hu).
  destruct (favorite_first _ _ _ db) as [fav|] eqn:F; cbn [fst];
    unfold favorites_of; cbn [favorites with_favorites].
  - unfold favorite_first in F. apply find_some in F as [Hin HP].
    apply andb_true_iff in HP as [HP H3]. apply andb_true_iff in HP as [H1 _].
    apply Nat.eqb_eq in H1, H3.
    rewrite filter_filter_and. apply filter_ext_in. intros g Hg.
    destruct ((Favorites.userId g =? u) && (Favorites.fileId g =? fid)) eqn:K;
      [|apply andb_false_r].
    rewrite andb_true_r. apply negb_true_iff, Nat.eqb_neq. intros Heq.
    assert (g = fav) as ->
        by exact (NoDup_map_eq Favorites._id _ g fav Hnd Hg Hin Heq).
    apply andb_true_iff in K as [K1 K2]. apply Nat.eqb_eq in K1, K2.
    destruct Hother as [Hx | Hx]; apply Hx; congruence.
  - rewrite filter_app. cbn.
    assert ((Users._id user =? u) && (Files._id f =? fid) = false) as ->.
    { apply andb_false_iff.
      destruct Hother as [Hx | Hx]; [left|right]; apply Nat.eqb_neq; congruence. }
    apply app_nil_r.
Qed.

Lemma toggleFavorite_leaves_other_pairs_witness :
  favorites_of 1 10 (after (toggleFavorite (acme_member 2) 10) db_favorites)
  = favorites_of 1 10 db_favorites /\
  favorites_of 2 11 (after (toggleFavorite (acme_member 2) 10) db_favorites)
  = favorites_of 2 11 db_favorites.
Proof.
  assert (favorite_ids_unique db_favorites) as Hnd.
  { unfold favorite_ids_unique. cbn.
    repeat constructor; cbn; intuition discriminate. }
  split.
  - apply (toggleFavorite_leaves_other_pairs
             (acme_member 2) 10 db_favorites 1 10 Hnd).
    intros user [= <-]. left. discriminate.
  - apply (toggleFavorite_leaves_other_pairs
             (acme_member 2) 10 db_favorites 2 11 Hnd).
    intros user _. right. discriminate.
Defined.

(** ** The sweep *)

Lemma sweep_ok db db' :
  mutation deleteAllFiles db = (db', inr tt) ->
  files db' = filter (fun g => negb (existsb (Nat.eqb (Files._id g))
                                 (map Files._id (files_by_shouldDelete_true db))))
                     (files db) /\
  storage db' = filter (fun s => negb (existsb (Nat.eqb s)
                                 (map Files.fileId (files_by_shouldDelete_true db))))
                       (storage db) /\
  favorites db' = favorites db /\ nextId db' = nextId db.
Proof.
  unfold mutation. rewrite deleteAllFiles_run.
  destruct (forEach purgeFile _ db) as [e|[[] db1]] eqn:E; [discriminate|].
  intros [= <-]. now apply forEach_purgeFile_ok.
Qed.

Lemma sweep_cases db :
  mutation deleteAllFiles db = (after deleteAllFiles db, inr tt) \/
  after deleteAllFiles db = db.
Proof.
  unfold after, mutation.
  destruct (deleteAllFiles db) as [e|[[] db1]]; [now right|now left].
Qed.

(** What every call leaves of the favorites table and of the id counter. *)
Lemma step_favorites c db :
  isToggle c = false -> favorites (after (handler c) db) = favorites db.
Proof.
  destruct c as [ctx args|ctx id|ctx id|ctx id|]; cbn [isToggle handler];
    intros H; try discriminate; unfold after.
  - destruct (hasAccessToOrg ctx (cf_orgId args)) as [user|] eqn:E.
    + now rewrite (createFile_member _ _ db _ E).
    + now rewrite (createFile_stranger _ _ db E).
  - rewrite deleteFile_run.
    destruct (hasAccessToFile ctx id db) as [[user f]|]; [|reflexivity].
    now destruct (canDelete user f).
  - rewrite restoreFile_run.
    destruct (hasAccessToFile ctx id db) as [[user f]|]; [|reflexivity].
    now destruct (canDelete user f).
  - destruct (sweep_cases db) as [Hs | Hs].
    + now apply sweep_ok in Hs as (_ & _ & Hs & _).
    + unfold after in Hs. now rewrite Hs.
Qed.

(** X15: only [toggleFavorite] writes the favorites table: whatever sequence
    of [createFile], [deleteFile], [restoreFile] and sweeps runs, every
    Favorite record stays as it is, so [getAllFavorites] keeps returning the
    Favorites of files that were soft-deleted or purged in between. *)
Theorem favorites_written_by_toggle_only calls db :
  forallb (fun c => negb (isToggle c)) calls = true ->
  favorites (run calls db) = favorites db /\
  (forall ctx orgId,
      getAllFavorites ctx orgId (run calls db) = getAllFavorites ctx orgId db).
Proof.
  intros H.
  assert (favorites (run calls db) = favorites db) as Hfav.
  { revert db. induction calls as [|c calls IH]; intros db; [reflexivity|].
    cbn in H. apply andb_true_iff in H as [Hc H]. apply negb_true_iff in Hc.
    cbn [run fold_left]. change (fold_left _ calls ?d) with (run calls d).
    rewrite (IH H). now apply step_favorites. }
  split; [exact Hfav|]. intros ctx orgId.
  unfold getAllFavorites, favorites_by_userId_orgId. now rewrite Hfav.
Qed.

Lemma favorites_written_by_toggle_only_witness :
  getAllFavorites (acme_member 2) "acme"
    (run [DeleteFile (acme_member 1) 10; DeleteAllFiles;
          CreateFile (acme_member 1) report_args] db_favorites)
  = getAllFavorites (acme_member 2) "acme" db_favorites.
Proof.
  apply (favorites_written_by_toggle_only
           [DeleteFile (acme_member 1) 10; DeleteAllFiles;
            CreateFile (acme_member 1) report_args] db_favorites).
  reflexivity.
Defined.

Lemma find_by_id_filter j ids l :
  find (fun g => Files._id g =? j)
       (filter (fun g => negb (existsb (Nat.eqb (Files._id g)) ids)) l) =
  if existsb (Nat.eqb j) ids then None
  else find (fun g => Files._id g =? j) l.
Proof.
  induction l as [|x l IH]; cbn; [now destruct (existsb _ _)|].
  destruct (Files._id x =? j) eqn:E.
  - apply Nat.eqb_eq in E. subst j.
    destruct (existsb (Nat.eqb (Files._id x)) ids) eqn:X; cbn.
    + exact IH.
    + now rewrite Nat.eqb_refl.
  - destruct (existsb (Nat.eqb (Files._id x)) ids); cbn; [exact IH|].
    now rewrite E.
Qed.

(** The lookup of an id after a successful sweep. *)
Lemma sweep_lookup db db' j :
  mutation deleteAllFiles db = (db', inr tt) ->
  db_get j db' =
  if existsb (Nat.eqb j) (map Files._id (files_by_shouldDelete_true db))
  then None else db_get j db.
Proof.
  intros H. apply sweep_ok in H as (H1 & _). unfold db_get. rewrite H1.
  apply find_by_id_filter.
Qed.

Lemma sweep_purged db db' f :
  mutation deleteAllFiles db = (db', inr tt) ->
  In f (files_by_shouldDelete_true db) ->
  db_get (Files._id f) db' = None /\ ~ In (Files.fileId f) (storage db').
Proof.
  intros H Hf. split.
  - rewrite (sweep_lookup _ _ _ H).
    assert (existsb (Nat.eqb (Files._id f))
                    (map Files._id (files_by_shouldDelete_true db)) = true) as ->;
      [|reflexivity].
    apply existsb_eqb_In. now apply in_map.
  - apply sweep_ok in H as (_ & H2 & _). rewrite H2. intros Hin.
    apply filter_In in Hin as [_ Hin]. apply negb_true_iff in Hin.
    assert (existsb (Nat.eqb (Files.fileId f))
                    (map Files.fileId (files_by_shouldDelete_true db)) = true) as X.
    { apply existsb_eqb_In. now apply in_map. }
    congruence.
Qed.

(** X16: after a sweep that succeeded, no document of the table has
    [shouldDelete] true, the id of every file that was flagged looks up
    nothing and its blob is gone, and a second sweep succeeds and changes
    nothing. *)
Theorem sweep_leaves_nothing_flagged db db' :
  mutation deleteAllFiles db = (db', inr tt) ->
  files_by_shouldDelete_true db' = [] /\
  (forall f, In f (files_by_shouldDelete_true db) ->
             db_get (Files._id f) db' = None /\
             ~ In (Files.fileId f) (storage db')) /\
  mutation deleteAllFiles db' = (db', inr tt).
Proof.
  intros H.
  assert (files_by_shouldDelete_true db' = []) as Hnone.
  { apply nil_of_no_member. intros g Hg. unfold files_by_shouldDelete_true in Hg.
    apply filter_In in Hg as [Hg Hflag].
    pose proof (sweep_ok _ _ H) as (H1 & _). rewrite H1 in Hg.
    apply filter_In in Hg as [Hg Hid]. apply negb_true_iff in Hid.
    assert (existsb (Nat.eqb (Files._id g))
                    (map Files._id (files_by_shouldDelete_true db)) = true) as X.
    { apply existsb_eqb_In. apply in_map. now apply filter_In. }
    congruence. }
  split; [exact Hnone|]. split.
  - intros f Hf. now apply (sweep_purged db).
  - unfold mutation. rewrite deleteAllFiles_run, Hnone. reflexivity.
Qed.

Lemma sweep_leaves_nothing_flagged_witness :
  files_by_shouldDelete_true (after deleteAllFiles db_sweepable) = [] /\
  db_get 10 (after deleteAllFiles db_sweepable) = None.
Proof.
  destruct (sweep_leaves_nothing_flagged db_sweepable
              (after deleteAllFiles db_sweepable)) as (H1 & H2 & _).
  - reflexivity.
  - split; [exact H1|].
    apply (H2 (acme_file 10 "a.pdf" 100 1 (Some true))). left. reflexivity.
Defined.

(** X17: the sweep does not clean up after the files it purges: a Favorite
    that points at a flagged file is still in the table after a successful
    sweep, while its [fileId] then looks up no file. *)
Theorem sweep_leaves_dangling_favorites db db' fav f :
  mutation deleteAllFiles db = (db', inr tt) ->
  In fav (favorites db) ->
  db_get (Favorites.fileId fav) db = Some f ->
  Files.shouldDelete f = Some true ->
  In fav (favorites db') /\ db_get (Favorites.fileId fav) db' = None.
Proof.
  intros H Hfav Hf Hflag. split.
  - apply sweep_ok in H as (_ & _ & H3 & _). now rewrite H3.
  - apply db_get_Some in Hf as [Hin <-].
    apply (sweep_purged db db' f H). unfold files_by_shouldDelete_true.
    apply filter_In. split; [assumption|]. unfold isFlagged. now rewrite Hflag.
Qed.

Lemma sweep_leaves_dangling_favorites_witness :
  In {| Favorites._id := 13; Favorites.fileId := 11;
        Favorites.userId := 2; Favorites.orgId := "acme" |}
     (favorites (after deleteAllFiles db_favorites)) /\
  db_get 11 (after deleteAllFiles db_favorites) = None.
Proof.
  apply (sweep_leaves_dangling_favorites db_favorites
           (after deleteAllFiles db_favorites)
           {| Favorites._id := 13; Favorites.fileId := 11;
              Favorites.userId := 2; Favorites.orgId := "acme" |}
           (acme_file 11 "Old notes.csv" 101 2 (Some true))).
  - reflexivity.
  - right. left. reflexivity.
  - reflexivity.
  - reflexivity.
Defined.

(** X18: soft delete and sweep compose: when a [deleteFile] by a caller who
    may delete the file is followed by a sweep that succeeds, the file's id
    looks up nothing and its blob is gone; when instead a [restoreFile] is
    followed by a sweep, whether that succeeds or not, the file is still
    there, with [shouldDelete] false. *)
Theorem deleteFile_then_sweep_purges_restoreFile_rescues ctx fileId db f :
  db_get fileId db = Some f ->
  mayDelete ctx f ->
  (forall db2,
      mutation deleteAllFiles (after (deleteFile ctx fileId) db) = (db2, inr tt) ->
      db_get fileId db2 = None /\ ~ In (Files.fileId f) (storage db2)) /\
  db_get fileId (after deleteAllFiles (after (restoreFile ctx fileId) db)) =
  Some (set_shouldDelete false f).
Proof.
  intros Hf Hm.
  destruct (mayDelete_access ctx fileId db f Hf Hm) as (user & Ha & Hc).
  pose proof (db_get_Some _ _ _ Hf) as [Hin Hid].
  split.
  - intros db2. unfold after at 1. rewrite deleteFile_run, Ha, Hc. cbn [fst].
    intros H.
    assert (In (set_shouldDelete true f)
               (files_by_shouldDelete_true
                  (with_files (patched fileId true (files db)) db))) as Hfl.
    { unfold files_by_shouldDelete_true. apply filter_In. split; [|reflexivity].
      cbn. unfold patched. apply in_map_iff. exists f. split; [|assumption].
      apply Nat.eqb_eq in Hid. now rewrite Hid. }
    destruct (sweep_purged _ _ _ H Hfl) as [H1 H2]. cbn in H1, H2.
    rewrite Hid in H1. now split.
  - unfold after at 2. rewrite restoreFile_run, Ha, Hc. cbn [fst].
    set (db1 := with_files (patched fileId false (files db)) db).
    assert (db_get fileId db1 = Some (set_shouldDelete false f)) as H1.
    { unfold db1. now rewrite db_get_patched, Hf. }
    destruct (sweep_cases db1) as [Hs | Hs]; [|now rewrite Hs].
    rewrite (sweep_lookup _ _ fileId Hs), H1.
    destruct (existsb _ _) eqn:X; [|reflexivity]. exfalso.
    apply existsb_eqb_In in X. apply in_map_iff in X as (g & Hg & Hgin).
    unfold files_by_shouldDelete_true in Hgin.
    apply filter_In in Hgin as [Hgin Hflag]. unfold db1 in Hgin. cbn in Hgin.
    unfold patched in Hgin. apply in_map_iff in Hgin as (g0 & Hg0 & _).
    destruct (Files._id g0 =? fileId) eqn:E.
    + rewrite <- Hg0 in Hflag. discriminate Hflag.
    + apply Nat.eqb_neq in E. apply E. now rewrite <- Hg, <- Hg0.
Qed.

Lemma deleteFile_then_sweep_purges_restoreFile_rescues_witness :
  db_get 10 (after deleteAllFiles (after (deleteFile (acme_member 1) 10) db_one))
  = None /\
  db_get 10 (after deleteAllFiles (after (restoreFile (acme_member 1) 10) db_one))
  = Some (acme_file 10 "Report.pdf" 100 1 (Some false)).
Proof.
  destruct (deleteFile_then_sweep_purges_restoreFile_rescues
              (acme_member 1) 10 db_one
              (acme_file 10 "Report.pdf" 100 1 None)) as [H1 H2].
  - reflexivity.
  - eexists. split; [reflexivity|]. split; [|reflexivity].
    eexists. split; [left; reflexivity|reflexivity].
  - split; [|exact H2].
    apply (H1 (after deleteAllFiles (after (deleteFile (acme_member 1) 10) db_one))).
    reflexivity.
Defined.

(** ** Sequences of calls *)

Lemma same_identity_refl f : same_identity f f.
Proof. now repeat split. Qed.

Lemma same_identity_trans f g h :
  same_identity f g -> same_identity g h -> same_identity f h.
Proof.
  unfold same_identity. intros (A1 & A2 & A3 & A4 & A5 & A6)
                               (B1 & B2 & B3 & B4 & B5 & B6).
  repeat split; congruence.
Qed.

Lemma run_cons c calls db : run (c :: calls) db = run calls (after (handler c) db).
Proof. reflexivity. Qed.

(** What one call does to the lookup of an id, to the id counter and to the
    stored blobs. *)
Lemma step_effect c db j :
  (isPurge c = false ->
   forall f, db_get j db = Some f ->
             exists f', db_get j (after (handler c) db) = Some f' /\
                        same_identity f f') /\
  (forall f', db_get j (after (handler c) db) = Some f' ->
              (exists f, db_get j db = Some f /\ same_identity f f') \/
              (db_get j db = None /\ j = nextId db)) /\
  nextId db <= nextId (after (handler c) db) /\
  incl (storage (after (handler c) db)) (storage db) /\
  (isPurge c = false -> storage (after (handler c) db) = storage db).
Proof.
  assert (forall db1 : Db,
             db_get j db1 = db_get j db -> nextId db1 = nextId db ->
             storage db1 = storage db ->
             (forall f, db_get j db = Some f ->
                        exists f', db_get j db1 = Some f' /\ same_identity f f') /\
             (forall f', db_get j db1 = Some f' ->
                         (exists f, db_get j db = Some f /\ same_identity f f') \/
                         (db_get j db = None /\ j = nextId db)) /\
             nextId db <= nextId db1 /\
             incl (storage db1) (storage db) /\
             storage db1 = storage db) as Hsame.
  { intros db1 Hg Hn Hs. rewrite Hg, Hn, Hs. repeat split.
    - intros f Hf. exists f. split; [assumption|apply same_identity_refl].
    - intros f' Hf'. left. exists f'. split; [assumption|apply same_identity_refl].
    - apply Nat.le_refl.
    - apply incl_refl. }
  assert (forall b id,
             let db1 := with_files (patched id b (files db)) db in
             (forall f, db_get j db = Some f ->
                        exists f', db_get j db1 = Some f' /\ same_identity f f') /\
             (forall f', db_get j db1 = Some f' ->
                         (exists f, db_get j db = Some f /\ same_identity f f') \/
                         (db_get j db = None /\ j = nextId db)) /\
             nextId db <= nextId db1 /\
             incl (storage db1) (storage db) /\
             storage db1 = storage db) as Hpatch.
  { intros b id. cbn zeta.
    destruct (patched_frame id b db) as (_ & H2 & H3 & _ & H5 & H6).
    destruct (Nat.eq_dec j id) as [-> | Hne].
    - rewrite H3, H2. repeat split.
      + intros f Hf. rewrite db_get_patched, Hf. cbn.
        exists (set_shouldDelete b f). split; [reflexivity|]. now repeat split.
      + intros f' Hf'. left. destruct (H6 f' Hf') as (f & Hf & Hs & _). eauto.
      + apply Nat.le_refl.
      + apply incl_refl.
    - apply Hsame; [now apply H5|assumption|assumption]. }
  destruct c as [ctx args|ctx id|ctx id|ctx id|]; cbn [isPurge handler]; unfold after.
  - destruct (hasAccessToOrg ctx (cf_orgId args)) as [user|] eqn:E.
    + rewrite (createFile_member _ _ db _ E). cbn [fst].
      unfold db_get. cbn [files nextId storage]. rewrite find_app_r. cbn [find].
      cbn [Files._id]. repeat split.
      * intros _ f Hf. rewrite Hf. exists f.
        split; [reflexivity|apply same_identity_refl].
      * intros f'. destruct (find _ (files db)) as [f|].
        -- intros [= <-]. left. exists f. split; [reflexivity|apply same_identity_refl].
        -- destruct (nextId db =? j) eqn:N; [|discriminate]. intros _. right.
           apply Nat.eqb_eq in N. now split.
      * apply Nat.le_succ_diag_r.
      * apply incl_refl.
    + pose proof (createFile_stranger _ _ db E) as Hd. unfold denied in Hd.
      rewrite Hd. cbn [fst].
      destruct (Hsame db eq_refl eq_refl eq_refl) as (A & B & C & D & F).
      repeat split; auto.
  - rewrite deleteFile_run.
    destruct (hasAccessToFile ctx id db) as [[user f]|];
      [destruct (canDelete user f)|]; cbn [fst].
    + destruct (Hpatch true id) as (A & B & C & D & F). repeat split; auto.
    + destruct (Hsame db eq_refl eq_refl eq_refl) as (A & B & C & D & F).
      repeat split; auto.
    + destruct (Hsame db eq_refl eq_refl eq_refl) as (A & B & C & D & F).
      repeat split; auto.
  - rewrite restoreFile_run.
    destruct (hasAccessToFile ctx id db) as [[user f]|];
      [destruct (canDelete user f)|]; cbn [fst].
    + destruct (Hpatch false id) as (A & B & C & D & F). repeat split; auto.
    + destruct (Hsame db eq_refl eq_refl eq_refl) as (A & B & C & D & F).
      repeat split; auto.
    + destruct (Hsame db eq_refl eq_refl eq_refl) as (A & B & C & D & F).
      repeat split; auto.
  - rewrite toggleFavorite_run.
    destruct (hasAccessToFile ctx id db) as [[user f]|];
      [destruct (favorite_first _ _ _ db)|]; cbn [fst].
    + destruct (Hsame (with_favorites
                         (filter (fun g => negb (Favorites._id g =? Favorites._id d))
                                 (favorites db)) db) eq_refl eq_refl eq_refl)
        as (A & B & C & D & F).
      repeat split; auto.
    + unfold db_get. cbn [files nextId storage]. repeat split.
      * intros _ f0 Hf0. exists f0. split; [assumption|apply same_identity_refl].
      * intros f' Hf'. left. exists f'.
        split; [assumption|apply same_identity_refl].
      * apply Nat.le_succ_diag_r.
      * apply incl_refl.
    + destruct (Hsame db eq_refl eq_refl eq_refl) as (A & B & C & D & F).
      repeat split; auto.
  - fold (after deleteAllFiles db). destruct (sweep_cases db) as [Hs | Hs].
    + pose proof (sweep_lookup _ _ j Hs) as Hl.
      apply sweep_ok in Hs as (_ & H2 & _ & H4). rewrite Hl, H4, H2.
      split; [discriminate|]. split; [|split; [apply Nat.le_refl|split]].
      * intros f'. destruct (existsb _ _); [discriminate|]. intros Hf'.
        left. exists f'. split; [assumption|apply same_identity_refl].
      * intros s Hin. now apply filter_In in Hin as [Hin _].
      * discriminate.
    + rewrite Hs. destruct (Hsame db eq_refl eq_refl eq_refl) as (A & B & C & D & F).
      repeat split; auto.
Qed.

Lemma run_nextId calls : forall db, nextId db <= nextId (run calls db).
Proof.
  induction calls as [|c calls IH]; intros db; [apply Nat.le_refl|].
  rewrite run_cons. destruct (step_effect c db 0) as (_ & _ & H & _).
  specialize (IH (after (handler c) db)). lia.
Qed.

Lemma run_lookup_none calls : forall db j,
  j < nextId db -> db_get j db = None -> db_get j (run calls db) = None.
Proof.
  induction calls as [|c calls IH]; intros db j Hj Hn; [assumption|].
  rewrite run_cons. destruct (step_effect c db j) as (_ & H2 & H3 & _).
  apply IH; [lia|].
  destruct (db_get j (after (handler c) db)) as [f'|] eqn:E; [|reflexivity].
  destruct (H2 f' eq_refl) as [(f & Hf & _) | (_ & Hid)]; [congruence|lia].
Qed.

(** X19: a File record keeps its id, name, organization, storage id, type
    and owner for life: whatever sequence of calls runs, the record an issued
    id looks up afterwards agrees in these fields with the record it looked
    up before. *)
Theorem file_identity_is_immutable calls db j f f' :
  j < nextId db ->
  db_get j db = Some f ->
  db_get j (run calls db) = Some f' ->
  same_identity f f'.
Proof.
  revert db f. induction calls as [|c calls IH]; intros db f Hj Hf Hf'.
  - cbn in Hf'. assert (f = f') as -> by congruence. apply same_identity_refl.
  - rewrite run_cons in Hf'.
    destruct (step_effect c db j) as (_ & H2 & H3 & _).
    destruct (db_get j (after (handler c) db)) as [f1|] eqn:E.
    + destruct (H2 f1 eq_refl) as [(f0 & Hf0 & Hs) | (Hn & _)]; [|congruence].
      assert (f0 = f) as -> by congruence.
      apply (same_identity_trans f f1 f'); [assumption|].
      apply (IH (after (handler c) db) f1); [lia|assumption|assumption].
    + rewrite (run_lookup_none calls _ j) in Hf'; [discriminate|lia|assumption].
Qed.

Lemma file_identity_is_immutable_witness :
  same_identity
    (acme_file 10 "Report.pdf" 100 1 None)
    (acme_file 10 "Report.pdf" 100 1 (Some false)).
Proof.
  apply (file_identity_is_immutable
           [DeleteFile (acme_member 1) 10; CreateFile (acme_admin 2) report_args;
            RestoreFile (acme_admin 2) 10; DeleteAllFiles]
           db_one 10).
  - cbn. lia.
  - reflexivity.
  - reflexivity.
Defined.

(** X20: ids are not reused and a purge is final: the id counter never
    decreases, and an id the store has issued that looks up no file (the file
    was purged) looks up no file after any further sequence of calls. *)
Theorem purged_ids_never_return calls db j :
  j < nextId db ->
  db_get j db = None ->
  db_get j (run calls db) = None /\ nextId db <= nextId (run calls db).
Proof.
  intros Hj Hn. split; [now apply run_lookup_none|apply run_nextId].
Qed.

Lemma purged_ids_never_return_witness :
  db_get 10
    (run [DeleteAllFiles; CreateFile (acme_member 1) report_args;
          RestoreFile (acme_member 1) 10; ToggleFavorite (acme_member 1) 10]
         (after deleteAllFiles db_sweepable)) = None.
Proof.
  apply (purged_ids_never_return
           [DeleteAllFiles; CreateFile (acme_member 1) report_args;
            RestoreFile (acme_member 1) 10; ToggleFavorite (acme_member 1) 10]
           (after deleteAllFiles db_sweepable) 10).
  - cbn. lia.
  - reflexivity.
Defined.

(** X21: deletion by the callers is soft: as long as no sweep runs, no
    sequence of [createFile], [deleteFile], [restoreFile] and
    [toggleFavorite] calls removes a File record; an id that looks up a file
    before looks up a file with the same identity after. *)
Theorem only_the_sweep_removes_files calls db j f :
  forallb (fun c => negb (isPurge c)) calls = true ->
  db_get j db = Some f ->
  exists f', db_get j (run calls db) = Some f' /\ same_identity f f'.
Proof.
  revert db f. induction calls as [|c calls IH]; intros db f H Hf.
  - exists f. split; [assumption|apply same_identity_refl].
  - cbn in H. apply andb_true_iff in H as [Hc H]. apply negb_true_iff in Hc.
    rewrite run_cons. destruct (step_effect c db j) as (H1 & _).
    destruct (H1 Hc f Hf) as (f1 & Hf1 & Hs1).
    destruct (IH _ f1 H Hf1) as (f' & Hf' & Hs').
    exists f'. split; [assumption|]. now apply (same_identity_trans f f1 f').
Qed.

Lemma only_the_sweep_removes_files_witness :
  exists f',
    db_get 10 (run [DeleteFile (acme_member 1) 10; DeleteFile (acme_admin 2) 10;
                    ToggleFavorite (acme_member 1) 10] db_one) = Some f' /\
    same_identity (acme_file 10 "Report.pdf" 100 1 None) f'.
Proof.
  apply (only_the_sweep_removes_files
           [DeleteFile (acme_member 1) 10; DeleteFile (acme_admin 2) 10;
            ToggleFavorite (acme_member 1) 10] db_one 10).
  - reflexivity.
  - reflexivity.
Defined.

(** X22: the functions of this file never add a blob and only the sweep
    removes one: after any sequence of calls every stored blob was stored
    before, and without a sweep in the sequence the stored blobs are exactly
    as before. *)
Theorem blobs_removed_by_the_sweep_only calls db :
  incl (storage (run calls db)) (storage db) /\
  (forallb (fun c => negb (isPurge c)) calls = true ->
   storage (run calls db) = storage db).
Proof.
  revert db. induction calls as [|c calls IH]; intros db.
  - split; [apply incl_refl|reflexivity].
  - rewrite run_cons. destruct (step_effect c db 0) as (_ & _ & _ & H4 & H5).
    destruct (IH (after (handler c) db)) as [I1 I2]. split.
    + intros s Hs. apply H4. now apply I1.
    + intros H. cbn in H. apply andb_true_iff in H as [Hc H].
      apply negb_true_iff in Hc. rewrite (I2 H). now apply H5.
Qed.

Lemma blobs_removed_by_the_sweep_only_witness :
  storage (run [DeleteFile (acme_member 1) 10;
                CreateFile (acme_member 1) report_args] db_one)
  = storage db_one.
Proof.
  apply (blobs_removed_by_the_sweep_only
           [DeleteFile (acme_member 1) 10;
            CreateFile (acme_member 1) report_args] db_one).
  reflexivity.
Defined.

(** ** More on listings *)

(** X23: [getFiles] reads its optional arguments by truthiness: an empty
    query string, [favorites: false] and [deletedOnly: false] give the same
    listing as leaving the argument out. *)
Theorem getFiles_falsy_arguments_ignored ctx args db :
  getFiles ctx (without_falsy args) db = getFiles ctx args db.
Proof.
  unfold getFiles, without_falsy. cbn [gf_orgId gf_query gf_favorites
                                       gf_deletedOnly gf_type].
  destruct (hasAccessToOrg ctx (gf_orgId args)) as [user|]; [|reflexivity].
  destruct (gf_query args) as [[|c q]|], (gf_favorites args) as [[|]|],
           (gf_deletedOnly args) as [[|]|]; reflexivity.
Qed.

(** X24: the favorites-only listing agrees with [getAllFavorites]: an entry
    is in the caller's favorites-only listing exactly when it is in the
    corresponding plain listing and one of the Favorites that
    [getAllFavorites] returns to the caller for the organization points at
    its file. *)
Theorem getFiles_favorites_agree_with_getAllFavorites ctx orgId d db r :
  In r (getFiles ctx (favorites_view orgId d) db) <->
  In r (getFiles ctx (view orgId d) db) /\
  exists fav, In fav (getAllFavorites ctx orgId db) /\
              Favorites.fileId fav = Files._id (file r).
Proof.
  rewrite !In_getFiles, !getFiles_keeps_true.
  cbn [favorites_view view gf_orgId gf_query gf_favorites gf_deletedOnly
       gf_type matchesQuery matchesType matchesFavorites].
  rewrite existsb_exists.
  assert ((exists x, In x (getAllFavorites ctx orgId db) /\
                     (Favorites.fileId x =? Files._id (file r)) = true) <->
          (exists fav, In fav (getAllFavorites ctx orgId db) /\
                       Favorites.fileId fav = Files._id (file r))) as ->.
  { split; intros (x & Hx & E); exists x; (split; [assumption|]);
      now apply Nat.eqb_eq. }
  tauto.
Qed.

Lemma getFiles_favorites_agree_with_getAllFavorites_witness :
  exists fav, In fav (getAllFavorites (acme_member 2) "acme" db_favorites) /\
              Favorites.fileId fav = 10.
Proof.
  apply (getFiles_favorites_agree_with_getAllFavorites
           (acme_member 2) "acme" None db_favorites
           {| file := acme_file 10 "Report.pdf" 100 1 None;
              url := Some (UrlOf 100) |}).
  left. reflexivity.
Defined.

Lemma getFiles_falsy_arguments_ignored_witness :
  getFiles (acme_member 2)
           {| gf_orgId := "acme"; gf_query := None; gf_favorites := None;
              gf_deletedOnly := None; gf_type := Some pdf |} db_favorites
  = getFiles (acme_member 2)
             {| gf_orgId := "acme"; gf_query := Some "";
                gf_favorites := Some false; gf_deletedOnly := Some false;
                gf_type := Some pdf |} db_favorites.
Proof.
  apply (getFiles_falsy_arguments_ignored
           (acme_member 2)
           {| gf_orgId := "acme"; gf_query := Some "";
              gf_favorites := Some false; gf_deletedOnly := Some false;
              gf_type := Some pdf |} db_favorites).
Defined.

(** ** Isolation of organizations *)

Lemma filter_patched_other id b orgId fs :
  (forall g, In g fs -> Files._id g = id -> Files.orgId g <> orgId) ->
  filter (fun g => Files.orgId g =? orgId)%string (patched id b fs) =
  filter (fun g => Files.orgId g =? orgId)%string fs.
Proof.
  unfold patched. induction fs as [|x fs IH]; intros H; [reflexivity|].
  cbn [map filter]. rewrite IH by (intros g Hg; apply H; now right).
  destruct (Files._id x =? id) eqn:E; [|reflexivity].
  apply Nat.eqb_eq in E. specialize (H x (or_introl eq_refl) E).
  apply String.eqb_neq in H. cbn [set_shouldDelete Files.orgId]. now rewrite H.
Qed.

Lemma patched_outside ctx id b db user f orgId :
  wf db -> ~ authorizedOrg ctx orgId ->
  hasAccessToFile ctx id db = Some (user, f) ->
  files_by_orgId orgId (with_files (patched id b (files db)) db) =
  files_by_orgId orgId db.
Proof.
  intros W Hout Ha. apply hasAccessToFile_Some in Ha as [Hf Ho].
  apply hasAccessToOrg_Some in Ho. apply db_get_Some in Hf as [Hin Hid].
  unfold files_by_orgId. cbn [with_files files].
  apply filter_patched_other. intros g Hg Hgid Horg.
  assert (g = f) as ->.
  { apply (NoDup_map_eq Files._id (files db)); try assumption.
    - apply (wf_file_ids db W).
    - congruence. }
  apply Hout. exists user. now rewrite <- Horg.
Qed.

Lemma step_outside orgId c db :
  wf db -> fromOutside orgId c ->
  files_by_orgId orgId (after (handler c) db) = files_by_orgId orgId db.
Proof.
  intros W Hc.
  destruct c as [ctx args|ctx id|ctx id|ctx id|]; cbn [fromOutside handler] in *;
    [| | | |destruct Hc]; unfold after.
  - destruct (hasAccessToOrg ctx (cf_orgId args)) as [user|] eqn:E.
    + rewrite (createFile_member _ _ db _ E). cbn [fst].
      unfold files_by_orgId. cbn [files]. rewrite filter_app. cbn.
      destruct (cf_orgId args =? orgId)%string eqn:X; [|apply app_nil_r].
      apply String.eqb_eq in X. exfalso. apply Hc. rewrite <- X.
      apply hasAccessToOrg_Some in E. now exists user.
    + pose proof (createFile_stranger _ _ db E) as Hd. unfold denied in Hd.
      now rewrite Hd.
  - rewrite deleteFile_run.
    destruct (hasAccessToFile ctx id db) as [[user f]|] eqn:Ha; [|reflexivity].
    destruct (canDelete user f); [|reflexivity].
    now apply (patched_outside ctx id true db user f).
  - rewrite restoreFile_run.
    destruct (hasAccessToFile ctx id db) as [[user f]|] eqn:Ha; [|reflexivity].
    destruct (canDelete user f); [|reflexivity].
    now apply (patched_outside ctx id false db user f).
  - rewrite toggleFavorite_run.
    destruct (hasAccessToFile ctx id db) as [[user f]|]; [|reflexivity].
    now destruct (favorite_first _ _ _ db).
Qed.

(** X25: the files of an organization are out of reach of everyone else: in
    a well-formed store, no sequence of [createFile], [deleteFile],
    [restoreFile] and [toggleFavorite] calls made by callers who are not
    members of the organization changes any of its File records. *)
Theorem files_of_an_organization_untouched_by_outsiders orgId calls db :
  wf db ->
  Forall (fromOutside orgId) calls ->
  files_by_orgId orgId (run calls db) = files_by_orgId orgId db.
Proof.
  revert db. induction calls as [|c calls IH]; intros db W H; [reflexivity|].
  inversion H as [|? ? Hc Hcalls]; subst. rewrite run_cons.
  rewrite IH; [now apply step_outside|now apply wf_step|assumption].
Qed.

Lemma files_of_an_organization_untouched_by_outsiders_witness :
  files_by_orgId "acme"
    (run [DeleteFile (outsider 3) 10;
          CreateFile (outsider 3)
                     {| cf_name := "x"; cf_fileId := 7; cf_orgId := "other";
                        cf_type := csv |};
          CreateFile (outsider 3) report_args;
          RestoreFile anonymous 10] db_one)
  = files_by_orgId "acme" db_one.
Proof.
  assert (~ authorizedOrg (outsider 3) "acme") as Ho.
  { intros (user & Hu & m & Hin & Hm). injection Hu as <-.
    cbn in Hin. destruct Hin as [<- | []]. discriminate Hm. }
  assert (~ authorizedOrg anonymous "acme") as Han.
  { intros (user & Hu & _). discriminate Hu. }
  apply (files_of_an_organization_untouched_by_outsiders "acme" _ db_one).
  - exact wf_db_one.
  - repeat constructor; assumption.
Defined.
